(** * pyhanko.pdf_utils.layout: box constraints, margins, alignment and [fit]

    A shallow embedding of [src/pyhanko/pdf_utils/layout.py].

    - Python numbers are a tagged union [pynum] of [int], [fractions.Fraction]
      and [float]; the arithmetic operators dispatch on the tags the way the
      interpreter does.  [int] and [Fraction] arithmetic is exact ([Z], [Q] in
      lowest terms).  IEEE-754 arithmetic is taken through the interface
      [Float64]; [binary64] implements it with the primitive floats.
    - A raised exception is the left injection of [result]; code that mutates
      the container box or logs a warning runs in the state-and-error monad
      [M], and the state reached when an exception is raised is kept. *)

From Stdlib Require Import ZArith QArith Qreduction Bool List String Lia.
From Stdlib Require Import Floats.PrimFloat Floats.FloatOps Floats.SpecFloat.
Import ListNotations.

Local Open Scope Z_scope.

(** ** Exceptions *)

(** The exception classes the module raises itself ([LayoutError] and its
    subclass [BoxSpecificationError]) and the built-in ones its arithmetic can
    raise. *)
Inductive exn : Type :=
| LayoutError
| BoxSpecificationError
| ZeroDivisionError
| OverflowError
| TypeError
| ValueError.

(** [class LayoutError(ValueError)], [class BoxSpecificationError(LayoutError)]:
    [isinstance_exn e c] is what [except c] would catch. *)
Definition isinstance_exn (e c : exn) : bool :=
  match c, e with
  | ValueError, (ValueError | LayoutError | BoxSpecificationError) => true
  | LayoutError, (LayoutError | BoxSpecificationError) => true
  | BoxSpecificationError, BoxSpecificationError => true
  | ZeroDivisionError, ZeroDivisionError => true
  | OverflowError, OverflowError => true
  | TypeError, TypeError => true
  | _, _ => false
  end.

Definition result (A : Type) : Type := (exn + A)%type.

(** The built-in exceptions: those that are not a [LayoutError]. *)
Definition builtin (e : exn) : Prop := isinstance_exn e LayoutError = false.

Definition raises_builtin {A : Type} (r : result A) : Prop :=
  forall e, r = inl e -> builtin e.

Definition Raise {A : Type} (e : exn) : result A := inl e.
Definition Return {A : Type} (a : A) : result A := inr a.

Definition rbind {A B : Type} (r : result A) (k : A -> result B) : result B :=
  match r with
  | inl e => inl e
  | inr a => k a
  end.

(** ** State and error monad *)

Definition M (S A : Type) : Type := S -> result A * S.

Definition ret {S A : Type} (a : A) : M S A := fun s => (inr a, s).

Definition raise {S A : Type} (e : exn) : M S A := fun s => (inl e, s).

Definition bind {S A B : Type} (m : M S A) (k : A -> M S B) : M S B :=
  fun s =>
    match m s with
    | (inl e, s') => (inl e, s')
    | (inr a, s') => k a s'
    end.

Definition lift {S A : Type} (r : result A) : M S A := fun s => (r, s).

Definition get {S : Type} : M S S := fun s => (inr s, s).

Definition modify {S : Type} (f : S -> S) : M S unit := fun s => (inr tt, f s).

Declare Scope py_scope.
Delimit Scope py_scope with py.

Notation "x <- m ;; k" := (bind m (fun x => k))
  (at level 100, m at next level, right associativity) : py_scope.
Notation "m ;;; k" := (bind m (fun _ => k))
  (at level 100, right associativity) : py_scope.
Notation "x <~ r ;; k" := (rbind r (fun x => k))
  (at level 100, r at next level, right associativity) : py_scope.

(** ** IEEE-754 double precision *)

(** The exact value of a float, for the comparisons with [int] and
    [Fraction], which Python decides exactly. *)
Inductive xreal : Type :=
| XNaN
| XInf (negative : bool)
| XFin (q : Q).

Class Float64 : Type := {
  float_t : Type;
  (** [float(n)] for an [int]; [None] is [OverflowError]. *)
  f_of_int : Z -> option float_t;
  (** [a / b] for two [int]s with [b] nonzero, correctly rounded;
      [None] is [OverflowError]. *)
  f_int_truediv : Z -> Z -> option float_t;
  f_add : float_t -> float_t -> float_t;
  f_sub : float_t -> float_t -> float_t;
  f_mul : float_t -> float_t -> float_t;
  (** [x / y] and [x // y] for a divisor that is not zero. *)
  f_truediv : float_t -> float_t -> float_t;
  f_floordiv : float_t -> float_t -> float_t;
  f_classify : float_t -> xreal
}.

(** *** The instance on primitive floats *)

Definition b64_of_sf (sf : spec_float) : option float :=
  match sf with
  | S754_infinity _ => None
  | _ => Some (SF2Prim sf)
  end.

Definition b64_of_int (n : Z) : option float :=
  b64_of_sf (binary_normalize prec emax n 0 false).

(** Integer true division rounds the exact quotient once: the quotient is
    taken with at least 55 bits and the remainder is kept as a sticky bit.
    A zero result has the sign of the quotient ([0 / -1] is [-0.0]). *)
Definition b64_int_truediv (a b : Z) : option float :=
  let negative := xorb (a <? 0) (b <? 0) in
  let n := Z.abs a in
  let d := Z.abs b in
  let k := Z.max 0 (Z.log2 d - Z.log2 n + 56) in
  let q := (n * 2 ^ k) / d in
  let sticky := if (n * 2 ^ k) mod d =? 0 then 0 else 1 in
  let m := 2 * q + sticky in
  b64_of_sf (binary_normalize prec emax (cond_Zopp negative m) (- k - 1) negative).

Definition b64_classify (f : float) : xreal :=
  match Prim2SF f with
  | S754_nan => XNaN
  | S754_infinity s => XInf s
  | S754_zero _ => XFin (0 # 1)
  | S754_finite s m e =>
      if 0 <=? e
      then XFin (cond_Zopp s (Zpos m * 2 ^ e) # 1)
      else XFin (Qred (cond_Zopp s (Zpos m) # Z.to_pos (2 ^ (- e))))
  end.

(** C's [fmod]: the remainder has the sign of [x] and is exact. *)
Definition b64_fmod (x y : float) : float :=
  if is_nan x || is_nan y || is_infinity x || is_zero y then nan
  else if is_infinity y then x
  else
    match Prim2SF x, Prim2SF y with
    | S754_finite sx mx ex, S754_finite sy my ey =>
        let e := Z.min ex ey in
        let X := Zpos mx * 2 ^ (ex - e) in
        let Y := Zpos my * 2 ^ (ey - e) in
        SF2Prim (binary_normalize prec emax (cond_Zopp sx (X mod Y)) e sx)
    | _, _ => x
    end.

(** C's [floor]. *)
Definition b64_floor (x : float) : float :=
  match Prim2SF x with
  | S754_finite s m e =>
      if 0 <=? e then x
      else
        let z := cond_Zopp s (Zpos m) / 2 ^ (- e) in
        SF2Prim (binary_normalize prec emax z 0 s)
  | _ => x
  end.

(** [float.__floordiv__], as CPython's [_float_div_mod] computes it. *)
Definition b64_floordiv (vx wx : float) : float :=
  let md := b64_fmod vx wx in
  let dv := ((vx - md) / wx)%float in
  let dv :=
    if negb (is_zero md) && xorb (wx <? zero)%float (md <? zero)%float
    then (dv - one)%float else dv in
  if negb (is_zero dv) then
    let fl := b64_floor dv in
    if (0.5 <? dv - fl)%float then (fl + one)%float else fl
  else if get_sign (vx / wx)%float then neg_zero else zero.

Definition binary64 : Float64 := {|
  float_t := float;
  f_of_int := b64_of_int;
  f_int_truediv := b64_int_truediv;
  f_add := PrimFloat.add;
  f_sub := PrimFloat.sub;
  f_mul := PrimFloat.mul;
  f_truediv := PrimFloat.div;
  f_floordiv := b64_floordiv;
  f_classify := b64_classify
|}.

(** ** Python numbers *)

Section Numbers.

Context {fl : Float64}.

Inductive pynum : Type :=
| PyInt (n : Z)
| PyFraction (q : Q)
| PyFloat (f : float_t).

(** [Fraction] keeps numerator and denominator in lowest terms. *)
Definition mkFraction (q : Q) : pynum := PyFraction (Qred q).

(** The operand of a mixed [int]/[Fraction] operation, as a rational. *)
Definition as_rational (a : pynum) : option Q :=
  match a with
  | PyInt n => Some (inject_Z n)
  | PyFraction q => Some q
  | PyFloat _ => None
  end.

(** [float(a)]: [int.__float__], and [Fraction.__float__], which is
    [numerator / denominator]. *)
Definition to_float (a : pynum) : result float_t :=
  match a with
  | PyInt n =>
      match f_of_int n with Some f => Return f | None => Raise OverflowError end
  | PyFraction q =>
      match f_int_truediv (Qnum q) (Zpos (Qden q)) with
      | Some f => Return f
      | None => Raise OverflowError
      end
  | PyFloat f => Return f
  end.

Definition value (a : pynum) : xreal :=
  match a with
  | PyInt n => XFin (inject_Z n)
  | PyFraction q => XFin q
  | PyFloat f => f_classify f
  end.

Definition xcompare (x y : xreal) : option comparison :=
  match x, y with
  | XNaN, _ | _, XNaN => None
  | XFin p, XFin q => Some (p ?= q)%Q
  | XInf true, XInf true | XInf false, XInf false => Some Eq
  | XInf true, _ | _, XInf false => Some Lt
  | XInf false, _ | _, XInf true => Some Gt
  end.

(** Rich comparison; [None] when a NaN makes the operands unordered. *)
Definition pycompare (a b : pynum) : option comparison :=
  match a, b with
  | PyInt x, PyInt y => Some (x ?= y)
  | _, _ => xcompare (value a) (value b)
  end.

(** [a < b] *)
Definition pylt (a b : pynum) : bool :=
  match pycompare a b with Some Lt => true | _ => false end.

(** [a > b] *)
Definition pygt (a b : pynum) : bool :=
  match pycompare a b with Some Gt => true | _ => false end.

(** [a == 0], the test behind [ZeroDivisionError]. *)
Definition is_zero_num (a : pynum) : bool :=
  match pycompare a (PyInt 0) with Some Eq => true | _ => false end.

(** An arithmetic operator: exact on [int], exact on [Fraction] when a
    [Fraction] meets an [int] or a [Fraction], and on [float] after
    converting both operands when either is a [float]. *)
Definition arith (on_int : Z -> Z -> result pynum)
  (on_rat : Q -> Q -> result pynum)
  (on_float : float_t -> float_t -> result pynum) (a b : pynum) : result pynum :=
  match a, b with
  | PyInt x, PyInt y => on_int x y
  | _, _ =>
      match as_rational a, as_rational b with
      | Some p, Some q => on_rat p q
      | _, _ =>
          (x <~ to_float a ;;
           y <~ to_float b ;;
           on_float x y)%py
      end
  end.

(** [a + b] *)
Definition pyadd : pynum -> pynum -> result pynum :=
  arith (fun x y => Return (PyInt (x + y)))
        (fun p q => Return (mkFraction (p + q)))
        (fun x y => Return (PyFloat (f_add x y))).

(** [a - b] *)
Definition pysub : pynum -> pynum -> result pynum :=
  arith (fun x y => Return (PyInt (x - y)))
        (fun p q => Return (mkFraction (p - q)))
        (fun x y => Return (PyFloat (f_sub x y))).

(** [a * b] *)
Definition pymul : pynum -> pynum -> result pynum :=
  arith (fun x y => Return (PyInt (x * y)))
        (fun p q => Return (mkFraction (p * q)))
        (fun x y => Return (PyFloat (f_mul x y))).

(** [a / b]: true division; two [int]s give a [float]. *)
Definition pytruediv : pynum -> pynum -> result pynum :=
  arith (fun x y =>
           if y =? 0 then Raise ZeroDivisionError
           else match f_int_truediv x y with
                | Some f => Return (PyFloat f)
                | None => Raise OverflowError
                end)
        (fun p q =>
           if Qnum q =? 0 then Raise ZeroDivisionError
           else Return (mkFraction (p / q)))
        (fun x y =>
           if is_zero_num (PyFloat y) then Raise ZeroDivisionError
           else Return (PyFloat (f_truediv x y))).

(** [a // b]: floor division; an [int] unless a [float] is involved. *)
Definition pyfloordiv : pynum -> pynum -> result pynum :=
  arith (fun x y =>
           if y =? 0 then Raise ZeroDivisionError
           else Return (PyInt (x / y)))
        (fun p q =>
           if Qnum q =? 0 then Raise ZeroDivisionError
           else Return (PyInt ((Qnum p * Zpos (Qden q)) / (Zpos (Qden p) * Qnum q))))
        (fun x y =>
           if is_zero_num (PyFloat y) then Raise ZeroDivisionError
           else Return (PyFloat (f_floordiv x y))).

(** [min(a, b)] and [min(a, b, c)]: the first of the smallest, a later
    argument replaces the running minimum only when it is strictly less. *)
Definition pymin2 (a b : pynum) : pynum :=
  if pylt b a then b else a.

Definition pymin3 (a b c : pynum) : pynum :=
  let m := pymin2 a b in
  if pylt c m then c else m.

(** Truncation of a rational toward zero ([Fraction.__trunc__]). *)
Definition Qtrunc (q : Q) : Z := Z.quot (Qnum q) (Zpos (Qden q)).

(** [int(a)] *)
Definition pyint (a : pynum) : result pynum :=
  match a with
  | PyInt n => Return (PyInt n)
  | PyFraction q => Return (PyInt (Qtrunc q))
  | PyFloat f =>
      match f_classify f with
      | XNaN => Raise ValueError
      | XInf _ => Raise OverflowError
      | XFin q => Return (PyInt (Qtrunc q))
      end
  end.

(** [Fraction(a, b)]: both arguments have to be rational. *)
Definition Fraction (a b : pynum) : result pynum :=
  match as_rational a, as_rational b with
  | Some p, Some q =>
      if Qnum q =? 0 then Raise ZeroDivisionError
      else Return (mkFraction (p / q))
  | _, _ => Raise TypeError
  end.

End Numbers.

Arguments pynum : clear implicits.
Arguments pynum {fl}.

(** ** BoxConstraints *)

Section Layout.

Context {fl : Float64}.

(** The instance attributes.  A missing number is Python's [None];
    [_fully_specified] is [None] while the attribute has not been assigned
    (the early [return] of [__init__]). *)
Record BoxConstraints : Type := {
  _width : option pynum;
  _height : option pynum;
  _ar : option pynum;
  _fully_specified : option bool
}.

Definition with_width (v : option pynum) (self : BoxConstraints) : BoxConstraints :=
  {| _width := v; _height := _height self; _ar := _ar self;
     _fully_specified := _fully_specified self |}.

Definition with_height (v : option pynum) (self : BoxConstraints) : BoxConstraints :=
  {| _width := _width self; _height := v; _ar := _ar self;
     _fully_specified := _fully_specified self |}.

Definition with_ar (v : option pynum) (self : BoxConstraints) : BoxConstraints :=
  {| _width := _width self; _height := _height self; _ar := v;
     _fully_specified := _fully_specified self |}.

Definition with_fully_specified (v : bool) (self : BoxConstraints) : BoxConstraints :=
  {| _width := _width self; _height := _height self; _ar := _ar self;
     _fully_specified := Some v |}.

(** [int(x) if x is not None else None] *)
Definition int_or_None (x : option pynum) : result (option pynum) :=
  match x with
  | Some v => (n <~ pyint v ;; Return (Some n))%py
  | None => Return None
  end.

(** [BoxConstraints.__init__]: the object it leaves behind, or the
    exception it raises.  [w] and [h] are [self._width] and [self._height]
    after the first two assignments, so [w] is [None] exactly when [width]
    is.  The derived dimension of the aspect-ratio branch is computed from
    the argument as passed, and is stored as computed. *)
Definition __init__ (width height aspect_ratio : option pynum)
  : result BoxConstraints :=
  (w <~ int_or_None width ;;
   h <~ int_or_None height ;;
   let fully_specified := false in
   let self := {| _width := w; _height := h; _ar := None;
                  _fully_specified := None |} in
   match width, height, aspect_ratio with
   | None, None, None => Return self
   | _, _, _ =>
       self <~
         match w, h with
         | Some sw, Some sh =>
             match aspect_ratio with
             | Some _ => Raise BoxSpecificationError
             | None =>
                 ar <~ Fraction sw sh ;;
                 Return (with_ar (Some ar) self, true)
             end
         | _, _ =>
             match aspect_ratio with
             | Some ar =>
                 let self := with_ar (Some ar) self in
                 match height with
                 | Some hv =>
                     p <~ pymul hv ar ;;
                     Return (with_width (Some p) self, fully_specified)
                 | None =>
                     match width with
                     | Some wv =>
                         p <~ pytruediv wv ar ;;
                         Return (with_height (Some p) self, fully_specified)
                     | None => Return (self, fully_specified)
                     end
                 end
             | None => Return (self, fully_specified)
             end
         end ;;
       Return (with_fully_specified (snd self) (fst self))
   end)%py.

Definition _recalculate : M BoxConstraints unit :=
  (self <- get ;;
   match _width self, _height self with
   | Some w, Some h =>
       ar <- lift (Fraction w h) ;;
       modify (with_ar (Some ar)) ;;;
       modify (with_fully_specified true)
   | _, _ =>
       match _ar self with
       | Some ar =>
           match _height self with
           | Some h =>
               v <- lift (p <~ pymul h ar ;; pyint p) ;;
               modify (with_width (Some v)) ;;;
               modify (with_fully_specified true)
           | None =>
               match _width self with
               | Some w =>
                   v <- lift (p <~ pytruediv w ar ;; pyint p) ;;
                   modify (with_height (Some v)) ;;;
                   modify (with_fully_specified true)
               | None => ret tt
               end
           end
       | None => ret tt
       end
   end)%py.

(** The [width] property. *)
Definition width (self : BoxConstraints) : result pynum :=
  match _width self with
  | Some w => Return w
  | None => Raise BoxSpecificationError
  end.

(** [@width.setter] *)
Definition width_setter (width : pynum) : M BoxConstraints unit :=
  (self <- get ;;
   match _width self with
   | None => modify (with_width (Some width)) ;;; _recalculate
   | Some _ => raise BoxSpecificationError
   end)%py.

Definition width_defined (self : BoxConstraints) : bool :=
  match _width self with Some _ => true | None => false end.

(** The [height] property. *)
Definition height (self : BoxConstraints) : result pynum :=
  match _height self with
  | Some h => Return h
  | None => Raise BoxSpecificationError
  end.

(** [@height.setter] *)
Definition height_setter (height : pynum) : M BoxConstraints unit :=
  (self <- get ;;
   match _height self with
   | None => modify (with_height (Some height)) ;;; _recalculate
   | Some _ => raise BoxSpecificationError
   end)%py.

Definition height_defined (self : BoxConstraints) : bool :=
  match _height self with Some _ => true | None => false end.

(** The [aspect_ratio] property. *)
Definition aspect_ratio (self : BoxConstraints) : result pynum :=
  match _ar self with
  | Some r => Return r
  | None => Raise BoxSpecificationError
  end.

Definition aspect_ratio_defined (self : BoxConstraints) : bool :=
  match _ar self with Some _ => true | None => false end.

(** ** InnerScaling and AxisAlignment *)

Inductive InnerScaling : Type :=
| NO_SCALING
| STRETCH_FILL
| STRETCH_TO_FIT
| SHRINK_TO_FIT.

Definition InnerScaling_eqb (a b : InnerScaling) : bool :=
  match a, b with
  | NO_SCALING, NO_SCALING
  | STRETCH_FILL, STRETCH_FILL
  | STRETCH_TO_FIT, STRETCH_TO_FIT
  | SHRINK_TO_FIT, SHRINK_TO_FIT => true
  | _, _ => false
  end.

Inductive AxisAlignment : Type :=
| ALIGN_MIN
| ALIGN_MID
| ALIGN_MAX.

(** [_alignment_opposites] *)
Definition flipped (self : AxisAlignment) : AxisAlignment :=
  match self with
  | ALIGN_MID => ALIGN_MID
  | ALIGN_MIN => ALIGN_MAX
  | ALIGN_MAX => ALIGN_MIN
  end.

(** ** Margins *)

Record Margins : Type := {
  left : Z;
  right : Z;
  top : Z;
  bottom : Z
}.

Definition Margins_default : Margins :=
  {| left := 0; right := 0; top := 0; bottom := 0 |}.

Definition uniform (num : Z) : Margins :=
  {| left := num; right := num; top := num; bottom := num |}.

(** [Margins.effective]; [dim_name] only goes into the message of the
    exception. *)
Definition effective (dim_name : string) (container_len pre post : pynum)
  : result pynum :=
  (d <~ pysub container_len pre ;;
   eff <~ pysub d post ;;
   if pylt eff (PyInt 0) then Raise LayoutError else Return eff)%py.

Definition effective_width (self : Margins) (width : pynum) : result pynum :=
  effective "width" width (PyInt (left self)) (PyInt (right self)).

Definition effective_height (self : Margins) (height : pynum) : result pynum :=
  effective "height" height (PyInt (bottom self)) (PyInt (top self)).

(** ** Alignment along one axis *)

(** What [logger.warning] receives: the values its message interpolates. *)
Inductive LogRecord : Type :=
| Warning (inner_len container_len pre_margin post_margin : pynum).

Definition logger_warning (r : LogRecord) : M (list LogRecord) unit :=
  modify (fun records => records ++ [r]).

(** [AxisAlignment.align].  The [elif] chain tests [ALIGN_MAX], [ALIGN_MIN],
    the overflow of the content and [ALIGN_MID] in this order; the overflow
    test is only reached by [ALIGN_MID], the one remaining member. *)
Definition align (self : AxisAlignment)
  (container_len inner_len pre_margin post_margin : pynum)
  : M (list LogRecord) pynum :=
  (effective_max_len <-
     lift (effective "length" container_len pre_margin post_margin) ;;
   match self with
   | ALIGN_MAX =>
       lift (d <~ pysub container_len inner_len ;; pysub d post_margin)
   | ALIGN_MIN => ret pre_margin
   | ALIGN_MID =>
       if pygt inner_len effective_max_len then
         logger_warning (Warning inner_len container_len pre_margin post_margin) ;;;
         ret pre_margin
       else
         inner_offset <-
           lift (d <~ pysub effective_max_len inner_len ;; pyfloordiv d (PyInt 2)) ;;
         lift (pyadd pre_margin inner_offset)
   end)%py.

(** ** Fitting content into a container *)

Record Positioning : Type := {
  x_pos : pynum;
  y_pos : pynum;
  x_scale : pynum;
  y_scale : pynum
}.

(** What a call of [fit] can change: the container box it is handed, and
    the records the module's logger has received. *)
Record World : Type := {
  container_box : BoxConstraints;
  records : list LogRecord
}.

Definition on_box {A : Type} (m : M BoxConstraints A) : M World A :=
  fun w =>
    let (r, b) := m (container_box w) in
    (r, {| container_box := b; records := records w |}).

Definition on_logger {A : Type} (m : M (list LogRecord) A) : M World A :=
  fun w =>
    let (r, l) := m (records w) in
    (r, {| container_box := container_box w; records := l |}).

Definition _aln_width (alignment : AxisAlignment)
  (inner_nat_width pre_margin post_margin : pynum) : M World pynum :=
  (box <- on_box get ;;
   if width_defined box then
     w <- lift (width box) ;;
     on_logger (align alignment w inner_nat_width pre_margin post_margin)
   else
     v <- lift (s <~ pyadd inner_nat_width pre_margin ;; pyadd s post_margin) ;;
     on_box (width_setter v) ;;;
     ret pre_margin)%py.

Definition _aln_height (alignment : AxisAlignment)
  (inner_nat_height pre_margin post_margin : pynum) : M World pynum :=
  (box <- on_box get ;;
   if height_defined box then
     h <- lift (height box) ;;
     on_logger (align alignment h inner_nat_height pre_margin post_margin)
   else
     v <- lift (s <~ pyadd inner_nat_height pre_margin ;; pyadd s post_margin) ;;
     on_box (height_setter v) ;;;
     ret pre_margin)%py.

Record SimpleBoxLayoutRule : Type := {
  x_align : AxisAlignment;
  y_align : AxisAlignment;
  margins : Margins;
  inner_content_scaling : InnerScaling
}.

Definition substitute_margins (self : SimpleBoxLayoutRule) (new_margins : Margins)
  : SimpleBoxLayoutRule :=
  {| x_align := x_align self; y_align := y_align self;
     margins := new_margins;
     inner_content_scaling := inner_content_scaling self |}.

(** [SimpleBoxLayoutRule.fit]; [container_box] is the box in the state. *)
Definition fit (self : SimpleBoxLayoutRule)
  (inner_nat_width inner_nat_height : pynum) : M World Positioning :=
  (let margins := margins self in
   let scaling := inner_content_scaling self in
   box <- on_box get ;;
   scales <-
     (if negb (InnerScaling_eqb scaling NO_SCALING)
         && width_defined box && height_defined box
      then
        lift (w <~ width box ;;
              eff_width <~ effective_width margins w ;;
              h <~ height box ;;
              eff_height <~ effective_height margins h ;;
              x_scale <~ pytruediv eff_width inner_nat_width ;;
              y_scale <~ pytruediv eff_height inner_nat_height ;;
              match scaling with
              | STRETCH_TO_FIT =>
                  let m := pymin2 x_scale y_scale in Return (m, m)
              | SHRINK_TO_FIT =>
                  let m := pymin3 x_scale y_scale (PyInt 1) in Return (m, m)
              | _ => Return (x_scale, y_scale)
              end)
      else ret (PyInt 1, PyInt 1)) ;;
   let x_scale := fst scales in
   let y_scale := snd scales in
   sw <- lift (pymul inner_nat_width x_scale) ;;
   x_pos <- _aln_width (x_align self) sw
              (PyInt (left margins)) (PyInt (right margins)) ;;
   sh <- lift (pymul inner_nat_height y_scale) ;;
   y_pos <- _aln_height (y_align self) sh
              (PyInt (bottom margins)) (PyInt (top margins)) ;;
   ret {| x_pos := x_pos; y_pos := y_pos;
          x_scale := x_scale; y_scale := y_scale |})%py.

End Layout.

(** ** Concrete boxes and rules used in the examples below *)

Definition empty_box {fl : Float64} : BoxConstraints :=
  {| _width := None; _height := None; _ar := None; _fully_specified := None |}.

Definition ratio_box {fl : Float64} (ar : Q) : BoxConstraints :=
  {| _width := None; _height := None; _ar := Some (PyFraction ar);
     _fully_specified := Some false |}.

Definition sized_box {fl : Float64} (w h : Z) : BoxConstraints :=
  {| _width := Some (PyInt w); _height := Some (PyInt h);
     _ar := Some (mkFraction (inject_Z w / inject_Z h));
     _fully_specified := Some true |}.

Definition world_of {fl : Float64} (box : BoxConstraints) : World :=
  {| container_box := box; records := [] |}.

Definition rule_of (xa ya : AxisAlignment) (m : Z) (s : InnerScaling)
  : SimpleBoxLayoutRule :=
  {| x_align := xa; y_align := ya; margins := uniform m;
     inner_content_scaling := s |}.

(** ** What a computation leaves alone *)

Section Frames.

Context {fl : Float64}.

(** [m] appends at most [n] records to the log and drops none. *)
Definition log_grows_by {A : Type} (n : nat) (m : M World A) : Prop :=
  forall w, exists extra,
    records (snd (m w)) = records w ++ extra /\ (List.length extra <= n)%nat.

(** [m] leaves a box alone that has its width and its height. *)
Definition keeps_sized_box {A : Type} (m : M World A) : Prop :=
  forall w,
    width_defined (container_box w) = true ->
    height_defined (container_box w) = true ->
    container_box (snd (m w)) = container_box w.

(** [m] raises no [BoxSpecificationError]. *)
Definition never_underspecified {S A : Type} (m : M S A) : Prop :=
  forall s, fst (m s) <> inl BoxSpecificationError.

(** How many of width, height and aspect ratio the box has. *)
Definition known_fields (box : BoxConstraints) : nat :=
  (if width_defined box then 1 else 0)
  + (if height_defined box then 1 else 0)
  + (if aspect_ratio_defined box then 1 else 0).

(** The box has all three of width, height and aspect ratio. *)
Definition complete (box : BoxConstraints) : bool :=
  width_defined box && height_defined box && aspect_ratio_defined box.

End Frames.

(** * Properties *)

(** Running the monads: unfolds their combinators and reduces the matches
    this exposes, leaving the arithmetic alone. *)
Ltac run :=
  cbn [bind lift ret raise get modify rbind Return Raise fst snd
       on_box on_logger logger_warning].

(** Symbolic execution of [fit] and of what it calls: everything of the
    program is unfolded, the arithmetic of [Z] and [Q] is left as it is. *)
Ltac exec :=
  cbv beta iota zeta delta
    [bind lift ret raise get modify rbind Return Raise fst snd
     on_box on_logger logger_warning container_box records
     _width _height _ar _fully_specified
     with_width with_height with_ar with_fully_specified
     width height width_defined height_defined
     width_setter height_setter _recalculate
     fit _aln_width _aln_height align effective
     effective_width effective_height
     pyadd pysub pymul pytruediv pyfloordiv pyint pylt pygt pycompare
     arith as_rational Fraction mkFraction
     InnerScaling_eqb negb andb inject_Z Qnum Qden].

(** The same, with the calls of [align] kept as they are. *)
Ltac exec_to_align :=
  cbv beta iota zeta delta
    [bind lift ret raise get modify rbind Return Raise fst snd
     on_box on_logger logger_warning container_box records
     _width _height _ar _fully_specified
     with_width with_height with_ar with_fully_specified
     width height width_defined height_defined
     width_setter height_setter _recalculate
     fit _aln_width _aln_height
     pyadd pysub pymul pytruediv pyfloordiv pyint
     arith as_rational Fraction mkFraction
     InnerScaling_eqb negb andb].

Section Properties.

Context {fl : Float64}.

(** ** Integer arithmetic *)

Lemma pylt_int (x y : Z) : pylt (PyInt x) (PyInt y) = (x <? y).
Proof. reflexivity. Qed.

Lemma pygt_int (x y : Z) : pygt (PyInt x) (PyInt y) = (x >? y).
Proof. reflexivity. Qed.

Lemma pysub_int (x y : Z) : pysub (PyInt x) (PyInt y) = Return (PyInt (x - y)).
Proof. reflexivity. Qed.

Lemma pyadd_int (x y : Z) : pyadd (PyInt x) (PyInt y) = Return (PyInt (x + y)).
Proof. reflexivity. Qed.

Lemma pymul_int (x y : Z) : pymul (PyInt x) (PyInt y) = Return (PyInt (x * y)).
Proof. reflexivity. Qed.

Lemma pyfloordiv_int (x y : Z) :
  y <> 0 -> pyfloordiv (PyInt x) (PyInt y) = Return (PyInt (x / y)).
Proof.
  intros Hy. unfold pyfloordiv, arith.
  destruct (Z.eqb_spec y 0) as [E | _]; [contradiction | reflexivity].
Qed.

(** [Margins.effective] on integers: the difference, or [LayoutError] when
    it is negative. *)
Lemma effective_int (dim_name : string) (c pre post : Z) :
  effective dim_name (PyInt c) (PyInt pre) (PyInt post) =
  if c - pre - post <? 0 then Raise LayoutError
  else Return (PyInt (c - pre - post)).
Proof. reflexivity. Qed.

Lemma effective_int_ok (dim_name : string) (c pre post : Z) :
  pre + post <= c ->
  effective dim_name (PyInt c) (PyInt pre) (PyInt post) =
  Return (PyInt (c - pre - post)).
Proof.
  intros H. rewrite effective_int.
  destruct (Z.ltb_spec (c - pre - post) 0); [lia | reflexivity].
Qed.

Lemma effective_int_too_wide (dim_name : string) (c pre post : Z) :
  pre + post > c ->
  effective dim_name (PyInt c) (PyInt pre) (PyInt post) = Raise LayoutError.
Proof.
  intros H. rewrite effective_int.
  destruct (Z.ltb_spec (c - pre - post) 0); [reflexivity | lia].
Qed.

(** ** AxisAlignment.align *)

(** C3 (as amended): when the margins fit into the container,
    [pre_margin + post_margin <= container_len], [ALIGN_MAX.align] returns
    [container_len - inner_len - post_margin], [ALIGN_MIN.align] returns
    [pre_margin], and [ALIGN_MID.align], when moreover
    [inner_len <= container_len - pre_margin - post_margin], returns
    [pre_margin + floor((container_len - pre_margin - post_margin - inner_len) / 2)];
    none of them logs anything. *)
Theorem align_offsets (container_len inner_len pre_margin post_margin : Z)
  (log : list LogRecord) :
  pre_margin + post_margin <= container_len ->
  align ALIGN_MAX (PyInt container_len) (PyInt inner_len)
        (PyInt pre_margin) (PyInt post_margin) log
  = (Return (PyInt (container_len - inner_len - post_margin)), log)
  /\ align ALIGN_MIN (PyInt container_len) (PyInt inner_len)
        (PyInt pre_margin) (PyInt post_margin) log
     = (Return (PyInt pre_margin), log)
  /\ (inner_len <= container_len - pre_margin - post_margin ->
      align ALIGN_MID (PyInt container_len) (PyInt inner_len)
        (PyInt pre_margin) (PyInt post_margin) log
      = (Return (PyInt (pre_margin
                        + (container_len - pre_margin - post_margin - inner_len) / 2)),
         log)).
Proof.
  intros Hfit.
  unfold align, bind, lift.
  rewrite (effective_int_ok _ _ _ _ Hfit). run.
  repeat split.
  intros Hinner.
  rewrite pygt_int.
  destruct (Z.gtb_spec inner_len (container_len - pre_margin - post_margin))
    as [Hgt | _]; [lia | ].
  rewrite pysub_int. run.
  rewrite pyfloordiv_int by discriminate.
  reflexivity.
Qed.

(** C5: [ALIGN_MID.align] with a non-negative effective length that the
    content exceeds does not raise: it logs exactly one warning and returns
    [pre_margin]. *)
Theorem align_mid_overflow (container_len inner_len pre_margin post_margin : Z)
  (log : list LogRecord) :
  container_len - pre_margin - post_margin >= 0 ->
  inner_len > container_len - pre_margin - post_margin ->
  align ALIGN_MID (PyInt container_len) (PyInt inner_len)
        (PyInt pre_margin) (PyInt post_margin) log
  = (Return (PyInt pre_margin),
     log ++ [Warning (PyInt inner_len) (PyInt container_len)
                     (PyInt pre_margin) (PyInt post_margin)]).
Proof.
  intros Heff Hinner.
  unfold align, bind, lift.
  rewrite effective_int_ok by lia. run.
  rewrite pygt_int.
  destruct (Z.gtb_spec inner_len (container_len - pre_margin - post_margin))
    as [_ | Hle]; [reflexivity | lia].
Qed.

(** C9: whatever the alignment, [align] raises [LayoutError] when
    [pre_margin + post_margin > container_len], and logs nothing: the
    effective length is computed and checked before the alignment is looked
    at. *)
Theorem align_margins_too_wide (self : AxisAlignment)
  (container_len inner_len pre_margin post_margin : Z) (log : list LogRecord) :
  pre_margin + post_margin > container_len ->
  align self (PyInt container_len) (PyInt inner_len)
        (PyInt pre_margin) (PyInt post_margin) log
  = (Raise LayoutError, log).
Proof.
  intros Hwide.
  unfold align, bind, lift.
  rewrite (effective_int_too_wide _ _ _ _ Hwide).
  reflexivity.
Qed.

(** ** Which exceptions the arithmetic can raise *)

Lemma raises_builtin_return {A : Type} (a : A) : raises_builtin (Return a).
Proof. intros e H. discriminate H. Qed.

Lemma raises_builtin_rbind {A B : Type} (r : result A) (k : A -> result B) :
  raises_builtin r -> (forall a, raises_builtin (k a)) ->
  raises_builtin (rbind r k).
Proof.
  intros Hr Hk e. destruct r as [e' | a]; cbn [rbind].
  - intros H. inversion H; subst. apply (Hr e). reflexivity.
  - apply Hk.
Qed.

Lemma to_float_builtin (a : pynum) : raises_builtin (to_float a).
Proof.
  intros e. destruct a as [n | q | f]; cbn [to_float].
  - destruct (f_of_int n); intros H; inversion H; reflexivity.
  - destruct (f_int_truediv _ _); intros H; inversion H; reflexivity.
  - intros H. discriminate H.
Qed.

Lemma arith_builtin on_int on_rat on_float (a b : pynum) :
  (forall x y, raises_builtin (on_int x y)) ->
  (forall p q, raises_builtin (on_rat p q)) ->
  (forall x y, raises_builtin (on_float x y)) ->
  raises_builtin (arith on_int on_rat on_float a b).
Proof.
  intros Hi Hr Hf.
  assert (Hfl : raises_builtin
                  (x <~ to_float a ;; y <~ to_float b ;; on_float x y)%py).
  { apply raises_builtin_rbind; [apply to_float_builtin | intros x].
    apply raises_builtin_rbind; [apply to_float_builtin | intros y]. apply Hf. }
  destruct a as [x | p | f], b as [y | q | g]; cbn [arith as_rational];
    solve [apply Hi | apply Hr | exact Hfl].
Qed.

Lemma pymul_builtin (a b : pynum) : raises_builtin (pymul a b).
Proof. apply arith_builtin; intros; apply raises_builtin_return. Qed.

Lemma pytruediv_builtin (a b : pynum) : raises_builtin (pytruediv a b).
Proof.
  apply arith_builtin; intros x y e.
  - destruct (y =? 0); [ | destruct (f_int_truediv x y)];
      intros H; inversion H; reflexivity.
  - destruct (Qnum y =? 0); intros H; inversion H; reflexivity.
  - destruct (is_zero_num (PyFloat y)); intros H; inversion H; reflexivity.
Qed.

Lemma pyint_builtin (a : pynum) : raises_builtin (pyint a).
Proof.
  intros e. destruct a as [n | q | f]; cbn [pyint]; try discriminate.
  destruct (f_classify f); intros H; inversion H; reflexivity.
Qed.

Lemma Fraction_builtin (a b : pynum) : raises_builtin (Fraction a b).
Proof.
  intros e. unfold Fraction.
  destruct (as_rational a) as [p | ], (as_rational b) as [q | ];
    try (intros H; inversion H; reflexivity).
  destruct (Qnum q =? 0); intros H; inversion H; reflexivity.
Qed.

(** Recalculation raises no [LayoutError], so no [BoxSpecificationError]. *)
Lemma _recalculate_builtin (self : BoxConstraints) (e : exn) :
  fst (_recalculate self) = inl e -> builtin e.
Proof.
  unfold _recalculate. run.
  destruct (_width self) as [w | ] eqn:Ew, (_height self) as [h | ] eqn:Eh.
  - pose proof (Fraction_builtin w h e) as HF.
    destruct (Fraction w h); run; [intros H; inversion H; subst; apply HF; reflexivity | discriminate].
  - destruct (_ar self) as [ar | ]; run; [ | discriminate].
    pose proof (raises_builtin_rbind (pytruediv w ar) pyint
                  (pytruediv_builtin w ar) pyint_builtin e) as HF.
    unfold rbind in HF.
    destruct (pytruediv w ar) as [e' | p]; run;
      [intros H; inversion H; subst; apply HF; reflexivity | ].
    destruct (pyint p); run; [intros H; inversion H; subst; apply HF; reflexivity | discriminate].
  - destruct (_ar self) as [ar | ]; run; [ | discriminate].
    pose proof (raises_builtin_rbind (pymul h ar) pyint
                  (pymul_builtin h ar) pyint_builtin e) as HF.
    unfold rbind in HF.
    destruct (pymul h ar) as [e' | p]; run;
      [intros H; inversion H; subst; apply HF; reflexivity | ].
    destruct (pyint p); run; [intros H; inversion H; subst; apply HF; reflexivity | discriminate].
  - destruct (_ar self) as [ar | ]; run; discriminate.
Qed.

(** ** BoxConstraints *)

(** C6: reading [width], [height] or [aspect_ratio] raises
    [BoxSpecificationError] exactly when the field is unset, and returns the
    field otherwise; the three probes are total and tell whether the field
    is set; assigning [width] or [height] raises [BoxSpecificationError]
    exactly when that dimension is already defined, leaving the box as it
    was, and otherwise stores the value and runs the recalculation. *)
Theorem accessors_and_setters (self : BoxConstraints) (v : pynum) :
  ((width self = Raise BoxSpecificationError <-> _width self = None)
   /\ (forall w, _width self = Some w -> width self = Return w)
   /\ (width_defined self = true <-> _width self <> None))
  /\ ((height self = Raise BoxSpecificationError <-> _height self = None)
      /\ (forall h, _height self = Some h -> height self = Return h)
      /\ (height_defined self = true <-> _height self <> None))
  /\ ((aspect_ratio self = Raise BoxSpecificationError <-> _ar self = None)
      /\ (forall r, _ar self = Some r -> aspect_ratio self = Return r)
      /\ (aspect_ratio_defined self = true <-> _ar self <> None))
  /\ ((fst (width_setter v self) = Raise BoxSpecificationError
       <-> _width self <> None)
      /\ (_width self <> None ->
          width_setter v self = (Raise BoxSpecificationError, self))
      /\ (_width self = None ->
          width_setter v self = _recalculate (with_width (Some v) self)))
  /\ ((fst (height_setter v self) = Raise BoxSpecificationError
       <-> _height self <> None)
      /\ (_height self <> None ->
          height_setter v self = (Raise BoxSpecificationError, self))
      /\ (_height self = None ->
          height_setter v self = _recalculate (with_height (Some v) self))).
Proof.
  assert (Hnot : forall b : BoxConstraints,
             fst (_recalculate b) <> inl BoxSpecificationError).
  { intros b H. apply _recalculate_builtin in H. discriminate H. }
  unfold width, height, aspect_ratio, width_defined, height_defined,
    aspect_ratio_defined, width_setter, height_setter.
  repeat match goal with |- _ /\ _ => split end.
  - destruct (_width self); unfold Return, Raise; split; intros H;
      first [discriminate H | congruence | reflexivity].
  - intros w E. rewrite E. reflexivity.
  - destruct (_width self); unfold Return, Raise; split; intros H;
      first [discriminate H | congruence | reflexivity].
  - destruct (_height self); unfold Return, Raise; split; intros H;
      first [discriminate H | congruence | reflexivity].
  - intros h E. rewrite E. reflexivity.
  - destruct (_height self); unfold Return, Raise; split; intros H;
      first [discriminate H | congruence | reflexivity].
  - destruct (_ar self); unfold Return, Raise; split; intros H;
      first [discriminate H | congruence | reflexivity].
  - intros r E. rewrite E. reflexivity.
  - destruct (_ar self); unfold Return, Raise; split; intros H;
      first [discriminate H | congruence | reflexivity].
  - run. destruct (_width self); run; split; intros H;
      try reflexivity; try congruence.
    exfalso. apply (Hnot (with_width (Some v) self)).
    destruct (_recalculate (with_width (Some v) self)) as [[e | []] b];
      exact H.
  - run. destruct (_width self); run; [reflexivity | congruence].
  - intros E. run. rewrite E. run.
    destruct (_recalculate (with_width (Some v) self)) as [[e | []] b];
      reflexivity.
  - run. destruct (_height self); run; split; intros H;
      try reflexivity; try congruence.
    exfalso. apply (Hnot (with_height (Some v) self)).
    destruct (_recalculate (with_height (Some v) self)) as [[e | []] b];
      exact H.
  - run. destruct (_height self); run; [reflexivity | congruence].
  - intros E. run. rewrite E. run.
    destruct (_recalculate (with_height (Some v) self)) as [[e | []] b];
      reflexivity.
Qed.

Lemma Qnum_nonzero (q : Q) : ~ (q == 0)%Q -> (Qnum q =? 0) = false.
Proof.
  intros H. apply Z.eqb_neq. intros E. apply H.
  unfold Qeq. rewrite E. reflexivity.
Qed.

(** A constructor call that passes all three arguments never builds a box:
    it raises what [int()] raises on a dimension, and else
    [BoxSpecificationError]. *)
Lemma init_overspecified_any (w h ar : pynum) :
  __init__ (Some w) (Some h) (Some ar)
  = (_ <~ pyint w ;; _ <~ pyint h ;; Raise BoxSpecificationError)%py.
Proof.
  unfold __init__, int_or_None.
  destruct (pyint w) as [e | iw]; [reflexivity | ].
  destruct (pyint h) as [e | ih]; reflexivity.
Qed.

(** C7: a constructor call that passes [width], [height] and
    [aspect_ratio] raises [BoxSpecificationError], whatever the three values
    are, also when the ratio is width/height: the aspect ratio is never
    looked at.  The dimensions are any numbers that [int()] accepts, so all
    integers and fractions. *)
Theorem init_overspecified (w h ar iw ih : pynum) :
  pyint w = Return iw -> pyint h = Return ih ->
  __init__ (Some w) (Some h) (Some ar) = Raise BoxSpecificationError.
Proof.
  intros Hw Hh. rewrite init_overspecified_any, Hw, Hh. reflexivity.
Qed.

(** C8: built from an aspect ratio and one dimension, the box knows both
    dimensions and its [_fully_specified] flag is [False]; built from width
    and height, the flag is [True]. *)
Theorem init_fully_specified_asymmetry (w h : Z) (ar : Q) :
  h <> 0 -> ~ (ar == 0)%Q ->
  __init__ None (Some (PyInt h)) (Some (PyFraction ar))
  = Return {| _width := Some (mkFraction (inject_Z h * ar));
              _height := Some (PyInt h);
              _ar := Some (PyFraction ar);
              _fully_specified := Some false |}
  /\ __init__ (Some (PyInt w)) None (Some (PyFraction ar))
     = Return {| _width := Some (PyInt w);
                 _height := Some (mkFraction (inject_Z w / ar));
                 _ar := Some (PyFraction ar);
                 _fully_specified := Some false |}
  /\ __init__ (Some (PyInt w)) (Some (PyInt h)) None
     = Return {| _width := Some (PyInt w);
                 _height := Some (PyInt h);
                 _ar := Some (mkFraction (inject_Z w / inject_Z h));
                 _fully_specified := Some true |}.
Proof.
  intros Hh Har. apply Qnum_nonzero in Har. apply Z.eqb_neq in Hh.
  repeat split.
  - unfold __init__, int_or_None, pyint, pytruediv, arith, as_rational. run.
    rewrite Har. reflexivity.
  - unfold __init__, int_or_None, pyint, Fraction, as_rational. run.
    cbn [inject_Z Qnum]. rewrite Hh. reflexivity.
Qed.

(** C4, at [BoxConstraints(height=3, aspect_ratio=Fraction(1, 2))]: the
    constructor stores the width [Fraction(3, 2)], the product as computed,
    while assigning the same height to a box that has the same aspect ratio
    makes the recalculation store the truncated width [1]. *)
Theorem init_derived_dimension_not_truncated :
  __init__ None (Some (PyInt 3)) (Some (PyFraction (1 # 2)))
  = Return {| _width := Some (PyFraction (3 # 2));
              _height := Some (PyInt 3);
              _ar := Some (PyFraction (1 # 2));
              _fully_specified := Some false |}
  /\ height_setter (PyInt 3) (ratio_box (1 # 2))
     = (Return tt,
        {| _width := Some (PyInt 1);
           _height := Some (PyInt 3);
           _ar := Some (PyFraction (1 # 2));
           _fully_specified := Some true |}).
Proof. split; reflexivity. Qed.

(** In general the constructor keeps the exact product where the
    recalculation truncates it. *)
Lemma init_keeps_exact_product (h : Z) (ar : Q) :
  (box <~ __init__ None (Some (PyInt h)) (Some (PyFraction ar)) ;;
   Return (_width box))%py
  = Return (Some (mkFraction (inject_Z h * ar)))
  /\ _width (snd (height_setter (PyInt h) (ratio_box ar)))
     = Some (PyInt (Qtrunc (Qred (inject_Z h * ar)))).
Proof. split; reflexivity. Qed.

(** ** Truncation *)

Lemma Qtrunc_Qred (q : Q) : Qtrunc (Qred q) = Qtrunc q.
Proof.
  destruct q as [n d]. unfold Qred, Qtrunc.
  pose proof (Z.ggcd_correct_divisors n (Zpos d)) as Hdiv.
  pose proof (Z.ggcd_gcd n (Zpos d)) as Hgcd.
  pose proof (Z.gcd_nonneg n (Zpos d)) as Hnonneg.
  destruct (Z.ggcd n (Zpos d)) as [g [a b]].
  cbn [fst snd Qnum Qden] in *. destruct Hdiv as [Hn Hd].
  assert (Hg : g <> 0) by (intros E; subst g; lia).
  assert (Hb : 0 < b) by nia.
  rewrite Z2Pos.id by exact Hb.
  rewrite Hn, Hd. symmetry. apply Z.quot_mul_cancel_l; lia.
Qed.

(** The integer that [int(w / ar)] stores: the quotient of [w] by the ratio,
    truncated toward zero. *)
Lemma Qtrunc_div (w : Z) (ar : Q) :
  Qtrunc (Qred (inject_Z w / ar)) = Z.quot (w * Zpos (Qden ar)) (Qnum ar).
Proof.
  rewrite Qtrunc_Qred. destruct ar as [[ | p | p] d];
    unfold Qtrunc, Qdiv, Qinv, Qmult, inject_Z; cbn [Qnum Qden].
  - rewrite Z.mul_0_r. destruct (w * Z.pos d); reflexivity.
  - reflexivity.
  - change (Z.neg d) with (- Z.pos d). change (Z.neg p) with (- Z.pos p).
    rewrite Z.mul_opp_r, Z.quot_opp_l, Z.quot_opp_r by discriminate.
    reflexivity.
Qed.

(** ** SimpleBoxLayoutRule.fit *)

Lemma bind_inr {S A B : Type} (m : M S A) (k : A -> M S B) (s s' : S) (b : B) :
  bind m k s = (inr b, s') ->
  exists a s1, m s = (inr a, s1) /\ k a s1 = (inr b, s').
Proof.
  unfold bind. destruct (m s) as [[e | a] s1]; intros H.
  - discriminate H.
  - exists a, s1. split; [reflexivity | exact H].
Qed.

Lemma rbind_inr {A B : Type} (r : result A) (k : A -> result B) (b : B) :
  rbind r k = inr b -> exists a, r = inr a /\ k a = inr b.
Proof.
  destruct r as [e | a]; cbn [rbind]; intros H.
  - discriminate H.
  - exists a. split; [reflexivity | exact H].
Qed.

Lemma lift_inr {S A : Type} (r : result A) (s s' : S) (a : A) :
  lift r s = (inr a, s') -> r = inr a /\ s' = s.
Proof. unfold lift. intros H. inversion H. split; reflexivity. Qed.

(** C1: the scale factors of the [Positioning] that [fit] returns.  When
    the policy is not [NO_SCALING] and the container has its width and its
    height, they come from [x_scale = effective_width(width) / inner_nat_width]
    and [y_scale = effective_height(height) / inner_nat_height]:
    [STRETCH_TO_FIT] gives both the value [min(x_scale, y_scale)],
    [SHRINK_TO_FIT] gives both [min(x_scale, y_scale, 1)], and the remaining
    policy, [STRETCH_FILL], keeps the two as they are.  In every other case
    both are the integer [1]. *)
Theorem fit_scale_selection (self : SimpleBoxLayoutRule)
  (inner_nat_width inner_nat_height : pynum) (w w' : World) (p : Positioning) :
  fit self inner_nat_width inner_nat_height w = (Return p, w') ->
  let box := container_box w in
  if negb (InnerScaling_eqb (inner_content_scaling self) NO_SCALING)
     && width_defined box && height_defined box
  then
    exists cw ch eff_width eff_height xs ys,
      _width box = Some cw /\ _height box = Some ch
      /\ effective_width (margins self) cw = Return eff_width
      /\ effective_height (margins self) ch = Return eff_height
      /\ pytruediv eff_width inner_nat_width = Return xs
      /\ pytruediv eff_height inner_nat_height = Return ys
      /\ match inner_content_scaling self with
         | STRETCH_TO_FIT =>
             x_scale p = pymin2 xs ys /\ y_scale p = pymin2 xs ys
         | SHRINK_TO_FIT =>
             x_scale p = pymin3 xs ys (PyInt 1)
             /\ y_scale p = pymin3 xs ys (PyInt 1)
         | STRETCH_FILL | NO_SCALING =>
             x_scale p = xs /\ y_scale p = ys
         end
  else x_scale p = PyInt 1 /\ y_scale p = PyInt 1.
Proof.
  intros H box. unfold fit in H. cbv zeta in H. unfold Return in *.
  apply bind_inr in H as (box0 & w1 & Hbox & H).
  assert (box0 = box) as -> by (inversion Hbox; reflexivity).
  apply bind_inr in H as (scales & w2 & Hscales & H).
  apply bind_inr in H as (sw & w3 & _ & H).
  apply bind_inr in H as (xp & w4 & _ & H).
  apply bind_inr in H as (sh & w5 & _ & H).
  apply bind_inr in H as (yp & w6 & _ & H).
  inversion H; subst p w'; clear H. cbn [x_scale y_scale].
  destruct (negb (InnerScaling_eqb (inner_content_scaling self) NO_SCALING)
            && width_defined box && height_defined box).
  - apply lift_inr in Hscales as [Hscales _].
    apply rbind_inr in Hscales as (cw & Hcw & Hscales).
    apply rbind_inr in Hscales as (eff_width & Hew & Hscales).
    apply rbind_inr in Hscales as (ch & Hch & Hscales).
    apply rbind_inr in Hscales as (eff_height & Heh & Hscales).
    apply rbind_inr in Hscales as (xs & Hxs & Hscales).
    apply rbind_inr in Hscales as (ys & Hys & Hscales).
    exists cw, ch, eff_width, eff_height, xs, ys.
    unfold width in Hcw. unfold height in Hch.
    destruct (_width box) as [cw' | ]; [ | discriminate Hcw].
    destruct (_height box) as [ch' | ]; [ | discriminate Hch].
    inversion Hcw; inversion Hch; subst cw' ch'.
    repeat match goal with |- _ /\ _ => split end;
      try reflexivity; try assumption.
    destruct (inner_content_scaling self); inversion Hscales;
      split; reflexivity.
  - inversion Hscales. split; reflexivity.
Qed.

(** The scaling step is skipped when the container has no width. *)
Lemma no_width_no_scaling (s : InnerScaling) (box : BoxConstraints) :
  _width box = None ->
  negb (InnerScaling_eqb s NO_SCALING) && width_defined box
  && height_defined box = false.
Proof.
  intros E. unfold width_defined. rewrite E.
  rewrite andb_false_r. reflexivity.
Qed.

(** C2 (as amended): on a box that has neither width, height nor aspect
    ratio, and for content and margins whose heights do not add up to zero,
    [fit] logs nothing, resolves the width to
    [inner_nat_width + left + right] and the height to
    [inner_nat_height + bottom + top], and returns the offsets [left] and
    [bottom] with both scales [1]. *)
Theorem fit_unresolved_autosizes (self : SimpleBoxLayoutRule)
  (inner_nat_width inner_nat_height : Z) (box : BoxConstraints)
  (log : list LogRecord) :
  _width box = None -> _height box = None -> _ar box = None ->
  inner_nat_height + bottom (margins self) + top (margins self) <> 0 ->
  let m := margins self in
  let W := inner_nat_width + left m + right m in
  let H := inner_nat_height + bottom m + top m in
  fit self (PyInt inner_nat_width) (PyInt inner_nat_height)
      {| container_box := box; records := log |}
  = (Return {| x_pos := PyInt (left m); y_pos := PyInt (bottom m);
               x_scale := PyInt 1; y_scale := PyInt 1 |},
     {| container_box :=
          {| _width := Some (PyInt W);
             _height := Some (PyInt H);
             _ar := Some (mkFraction (inject_Z W / inject_Z H));
             _fully_specified := Some true |};
        records := log |}).
Proof.
  intros Ew Eh Ear Hnz m W H.
  destruct box as [bw bh bar bfs]. cbn [_width _height _ar] in Ew, Eh, Ear.
  subst bw bh bar.
  subst m W H.
  unfold fit. cbv zeta. run. cbn [container_box].
  rewrite no_width_no_scaling by reflexivity.
  exec. rewrite !Z.mul_1_r.
  apply Z.eqb_neq in Hnz. rewrite Hnz.
  reflexivity.
Qed.

(** C10: on a box that has an aspect ratio and neither width nor height,
    [fit] leaves both scales at [1], resolves the width to
    [inner_nat_width + left + right], and this assignment makes the
    recalculation derive the height, the quotient of the width by the ratio
    truncated toward zero, and mark the box fully specified.  The height is
    therefore defined when the y axis is handled: the content is aligned
    within the derived height by [y_align], and the height is not resized
    to the content. *)
Theorem fit_ratio_box_derives_height (self : SimpleBoxLayoutRule)
  (inner_nat_width inner_nat_height : Z) (ar : Q) (fs : option bool)
  (log : list LogRecord) :
  ~ (ar == 0)%Q ->
  let m := margins self in
  let W := inner_nat_width + left m + right m in
  let H := Z.quot (W * Zpos (Qden ar)) (Qnum ar) in
  let box' := {| _width := Some (PyInt W);
                 _height := Some (PyInt H);
                 _ar := Some (PyFraction ar);
                 _fully_specified := Some true |} in
  fit self (PyInt inner_nat_width) (PyInt inner_nat_height)
      {| container_box :=
           {| _width := None; _height := None; _ar := Some (PyFraction ar);
              _fully_specified := fs |};
         records := log |}
  = match align (y_align self) (PyInt H) (PyInt inner_nat_height)
            (PyInt (bottom m)) (PyInt (top m)) log with
    | (inr y, log') =>
        (Return {| x_pos := PyInt (left m); y_pos := y;
                   x_scale := PyInt 1; y_scale := PyInt 1 |},
         {| container_box := box'; records := log' |})
    | (inl e, log') =>
        (Raise e, {| container_box := box'; records := log' |})
    end.
Proof.
  intros Har m W H box'. subst box' H W m.
  apply Qnum_nonzero in Har.
  rewrite <- Qtrunc_div.
  unfold fit. cbv zeta. run. cbn [container_box].
  rewrite no_width_no_scaling by reflexivity.
  exec_to_align. rewrite !Z.mul_1_r, Har.
  destruct (align _ _ _ _ _ log) as [[e | y] log']; reflexivity.
Qed.


End Properties.

(** * Further properties of the module *)

Section MoreProperties.

Context {fl : Float64}.

(** ** AxisAlignment *)

(** [align] on integers, when the margins fit into the container. *)
Lemma align_int (self : AxisAlignment) (c i pre post : Z) (log : list LogRecord) :
  pre + post <= c ->
  align self (PyInt c) (PyInt i) (PyInt pre) (PyInt post) log
  = match self with
    | ALIGN_MAX => (Return (PyInt (c - i - post)), log)
    | ALIGN_MIN => (Return (PyInt pre), log)
    | ALIGN_MID =>
        if i >? c - pre - post
        then (Return (PyInt pre),
              log ++ [Warning (PyInt i) (PyInt c) (PyInt pre) (PyInt post)])
        else (Return (PyInt (pre + (c - pre - post - i) / 2)), log)
    end.
Proof.
  intros Hfit. unfold align, bind, lift.
  rewrite (effective_int_ok _ _ _ _ Hfit). run.
  destruct self; try reflexivity.
  rewrite pygt_int. destruct (i >? c - pre - post); [reflexivity | ].
  rewrite pysub_int. run. rewrite pyfloordiv_int by discriminate. reflexivity.
Qed.

Lemma align_int_fits (self : AxisAlignment) (c i pre post : Z)
  (log : list LogRecord) :
  pre + post <= c -> i <= c - pre - post ->
  exists o,
    align self (PyInt c) (PyInt i) (PyInt pre) (PyInt post) log
    = (Return (PyInt o), log)
    /\ pre <= o /\ o + i <= c - post.
Proof.
  intros Hfit Hin. rewrite (align_int _ _ _ _ _ _ Hfit).
  destruct self.
  - exists pre. split; [reflexivity | lia].
  - destruct (Z.gtb_spec i (c - pre - post)) as [Hgt | _]; [lia | ].
    exists (pre + (c - pre - post - i) / 2). split; [reflexivity | ].
    pose proof (Z.div_pos (c - pre - post - i) 2).
    pose proof (Z.mul_div_le (c - pre - post - i) 2).
    lia.
  - exists (c - i - post). split; [reflexivity | lia].
Qed.

(** X1: Content that fits between the margins is placed between them, by every
    alignment, and nothing is logged. *)
Theorem align_within_margins (self : AxisAlignment) (c i pre post : Z)
  (log : list LogRecord) :
  pre + post <= c -> i <= c - pre - post ->
  exists o,
    align self (PyInt c) (PyInt i) (PyInt pre) (PyInt post) log
    = (Return (PyInt o), log)
    /\ pre <= o /\ o + i <= c - post.
Proof. exact (align_int_fits self c i pre post log). Qed.

(** X2: [ALIGN_MID] splits the free space into two parts that differ by at most
    one, the smaller part on the low side. *)
Theorem align_mid_centres (c i pre post : Z) (log : list LogRecord) :
  pre + post <= c -> i <= c - pre - post ->
  exists o,
    align ALIGN_MID (PyInt c) (PyInt i) (PyInt pre) (PyInt post) log
    = (Return (PyInt o), log)
    /\ o - pre <= c - post - (o + i) <= o - pre + 1.
Proof.
  intros Hfit Hin. rewrite (align_int _ _ _ _ _ _ Hfit).
  destruct (Z.gtb_spec i (c - pre - post)) as [Hgt | _]; [lia | ].
  exists (pre + (c - pre - post - i) / 2). split; [reflexivity | ].
  pose proof (Z.div_mod (c - pre - post - i) 2).
  pose proof (Z.mod_pos_bound (c - pre - post - i) 2).
  lia.
Qed.

(** X3: Aligning with the flipped alignment and the two margins exchanged gives
    the mirror image of the offset, [container_len - inner_len - offset]; for
    [ALIGN_MID] this needs content that fits and leaves an even free space. *)
Theorem align_flipped_mirrors (self : AxisAlignment) (c i pre post : Z)
  (log : list LogRecord) :
  pre + post <= c ->
  (self = ALIGN_MID ->
   i <= c - pre - post /\ Z.even (c - pre - post - i) = true) ->
  exists o,
    align self (PyInt c) (PyInt i) (PyInt pre) (PyInt post) log
    = (Return (PyInt o), log)
    /\ align (flipped self) (PyInt c) (PyInt i) (PyInt post) (PyInt pre) log
       = (Return (PyInt (c - i - o)), log).
Proof.
  intros Hfit Hmid.
  rewrite (align_int self _ _ _ _ _ Hfit).
  rewrite (align_int (flipped self) c i post pre log) by lia.
  destruct self; cbn [flipped].
  - exists pre. split; reflexivity.
  - destruct (Hmid eq_refl) as [Hin Heven].
    replace (c - post - pre) with (c - pre - post) by lia.
    destruct (Z.gtb_spec i (c - pre - post)) as [Hgt | _]; [lia | ].
    exists (pre + (c - pre - post - i) / 2). split; [reflexivity | ].
    apply Z.even_spec in Heven. destruct Heven as [k Hk].
    rewrite Hk. rewrite (Z.mul_comm 2 k), Z.div_mul by discriminate.
    do 3 f_equal. lia.
  - exists (c - i - post). split; [reflexivity | ].
    do 3 f_equal. lia.
Qed.

(** X4: On integers [align] raises exactly when the margins are wider than the
    container, and then it is a [LayoutError]; otherwise it returns an
    integer offset. *)
Theorem align_int_raises_iff (self : AxisAlignment) (c i pre post : Z)
  (log : list LogRecord) :
  (pre + post > c
   /\ align self (PyInt c) (PyInt i) (PyInt pre) (PyInt post) log
      = (Raise LayoutError, log))
  \/ (pre + post <= c
      /\ exists o,
           fst (align self (PyInt c) (PyInt i) (PyInt pre) (PyInt post) log)
           = Return (PyInt o)).
Proof.
  destruct (Z_le_gt_dec (pre + post) c) as [Hfit | Hwide].
  - right. split; [exact Hfit | ].
    rewrite (align_int _ _ _ _ _ _ Hfit).
    destruct self; [eexists; reflexivity | | eexists; reflexivity].
    destruct (i >? c - pre - post); eexists; reflexivity.
  - left. split; [exact Hwide | ].
    unfold align, bind, lift.
    rewrite (effective_int_too_wide _ _ _ _ Hwide). reflexivity.
Qed.

Lemma align_log (self : AxisAlignment)
  (container_len inner_len pre_margin post_margin : pynum)
  (log : list LogRecord) :
  let out := align self container_len inner_len pre_margin post_margin log in
  snd out = log
  \/ (self = ALIGN_MID
      /\ out = (Return pre_margin,
                log ++ [Warning inner_len container_len pre_margin post_margin])).
Proof.
  unfold align, bind, lift.
  destruct (effective "length" container_len pre_margin post_margin)
    as [e | eff]; [left; reflexivity | ].
  destruct self.
  - left. reflexivity.
  - destruct (pygt inner_len eff); [right; split; reflexivity | left].
    destruct (d <~ pysub eff inner_len ;; pyfloordiv d (PyInt 2))%py
      as [e | off]; [reflexivity | ].
    destruct (pyadd pre_margin off); reflexivity.
  - left. destruct (d <~ pysub container_len inner_len ;;
                    pysub d post_margin)%py; reflexivity.
Qed.

(** X5: Whatever the numbers, [align] leaves the log as it is, except that
    [ALIGN_MID] may append one warning, and then it returns [pre_margin]. *)
Theorem align_log_discipline (self : AxisAlignment)
  (container_len inner_len pre_margin post_margin : pynum)
  (log : list LogRecord) :
  let out := align self container_len inner_len pre_margin post_margin log in
  snd out = log
  \/ (self = ALIGN_MID
      /\ out = (Return pre_margin,
                log ++ [Warning inner_len container_len pre_margin post_margin])).
Proof. exact (align_log self _ _ _ _ log). Qed.

(** ** BoxConstraints *)

Lemma _recalculate_frame (self : BoxConstraints) :
  (forall e, fst (_recalculate self) = inl e -> snd (_recalculate self) = self)
  /\ (forall v, _width self = Some v ->
                _width (snd (_recalculate self)) = Some v)
  /\ (forall v, _height self = Some v ->
                _height (snd (_recalculate self)) = Some v).
Proof.
  destruct self as [[w | ] [h | ] [ar | ] fs];
    unfold _recalculate; run; cbn [_width _height _ar];
    repeat match goal with
      | |- context [lift ?r] => destruct r; run
      end;
    repeat split; intros; try discriminate; try reflexivity; try assumption.
Qed.

(** X6: A recalculation that raises leaves the box as it was, and a
    recalculation never changes a dimension that is already defined. *)
Theorem recalculate_atomic_and_monotone (self : BoxConstraints) :
  (forall e, fst (_recalculate self) = inl e -> snd (_recalculate self) = self)
  /\ (forall v, _width self = Some v ->
                _width (snd (_recalculate self)) = Some v)
  /\ (forall v, _height self = Some v ->
                _height (snd (_recalculate self)) = Some v).
Proof. exact (_recalculate_frame self). Qed.

Lemma _recalculate_known (self box' : BoxConstraints) :
  _recalculate self = (Return tt, box') ->
  if (2 <=? known_fields self)%nat
  then complete box' = true /\ _fully_specified box' = Some true
  else box' = self.
Proof.
  destruct self as [[w | ] [h | ] [ar | ] fs];
    unfold _recalculate; run; cbn [_width _height _ar];
    repeat match goal with
      | |- context [lift ?r] => destruct r; run
      end;
    intros H; inversion H; subst; cbn; try split; reflexivity.
Qed.

(** X7: When a recalculation returns, a box that had at least two of width,
    height and aspect ratio has all three and is marked fully specified; a
    box that had fewer is unchanged. *)
Theorem recalculate_completes (self box' : BoxConstraints) :
  _recalculate self = (Return tt, box') ->
  if (2 <=? known_fields self)%nat
  then complete box' = true /\ _fully_specified box' = Some true
  else box' = self.
Proof. exact (_recalculate_known self box'). Qed.

(** X8: A width is written once: after the assignment the box reads back the
    assigned value, also when the recalculation has raised, and every
    further assignment raises [BoxSpecificationError] and changes nothing. *)
Theorem width_write_once (self : BoxConstraints) (v v' : pynum) :
  _width self = None ->
  let box := snd (width_setter v self) in
  width box = Return v
  /\ width_setter v' box = (Raise BoxSpecificationError, box).
Proof.
  intros E box.
  assert (Hw : _width box = Some v).
  { subst box. unfold width_setter. run. rewrite E. run.
    destruct (_recalculate_frame (with_width (Some v) self))
      as (_ & Hkeep & _).
    specialize (Hkeep v eq_refl).
    destruct (_recalculate (with_width (Some v) self)) as [[e | []] b];
      exact Hkeep. }
  split.
  - unfold width. rewrite Hw. reflexivity.
  - unfold width_setter. run. rewrite Hw. reflexivity.
Qed.

(** X9: The same for the height. *)
Theorem height_write_once (self : BoxConstraints) (v v' : pynum) :
  _height self = None ->
  let box := snd (height_setter v self) in
  height box = Return v
  /\ height_setter v' box = (Raise BoxSpecificationError, box).
Proof.
  intros E box.
  assert (Hh : _height box = Some v).
  { subst box. unfold height_setter. run. rewrite E. run.
    destruct (_recalculate_frame (with_height (Some v) self))
      as (_ & _ & Hkeep).
    specialize (Hkeep v eq_refl).
    destruct (_recalculate (with_height (Some v) self)) as [[e | []] b];
      exact Hkeep. }
  split.
  - unfold height. rewrite Hh. reflexivity.
  - unfold height_setter. run. rewrite Hh. reflexivity.
Qed.

Lemma Qtrunc_mul (h : Z) (ar : Q) :
  Qtrunc (Qred (inject_Z h * ar)) = Z.quot (h * Qnum ar) (Zpos (Qden ar)).
Proof.
  rewrite Qtrunc_Qred. destruct ar as [n d]. reflexivity.
Qed.

Lemma Qlt_0_num (q : Q) : (0 < q)%Q -> 0 < Qnum q.
Proof. unfold Qlt. cbn [Qnum Qden]. lia. Qed.

(** X10: Assigning a width to a box that only has a positive aspect ratio
    derives the height [H] next to the exact quotient: with the ratio
    [n / d], [H * n <= width * d < (H + 1) * n], so the height is at most
    the exact one and less than one below it. *)
Theorem derived_height_within_one (W : Z) (ar : Q) (fs : option bool) :
  0 <= W -> (0 < ar)%Q ->
  exists H,
    width_setter (PyInt W)
      {| _width := None; _height := None; _ar := Some (PyFraction ar);
         _fully_specified := fs |}
    = (Return tt,
       {| _width := Some (PyInt W); _height := Some (PyInt H);
          _ar := Some (PyFraction ar); _fully_specified := Some true |})
    /\ H * Qnum ar <= W * Zpos (Qden ar) < (H + 1) * Qnum ar.
Proof.
  intros HW Har. apply Qlt_0_num in Har.
  exists (Z.quot (W * Zpos (Qden ar)) (Qnum ar)). split.
  - rewrite <- Qtrunc_div.
    exec_to_align.
    destruct (Z.eqb_spec (Qnum ar) 0) as [E | _]; [lia | ]. reflexivity.
  - rewrite Z.quot_div_nonneg by lia.
    pose proof (Z.mul_div_le (W * Zpos (Qden ar)) (Qnum ar) Har).
    pose proof (Z.mul_succ_div_gt (W * Zpos (Qden ar)) (Qnum ar) Har).
    lia.
Qed.

(** X11: Assigning a height to such a box derives the width [V] likewise:
    [V * d <= height * n < (V + 1) * d]. *)
Theorem derived_width_within_one (H : Z) (ar : Q) (fs : option bool) :
  0 <= H -> (0 < ar)%Q ->
  exists V,
    height_setter (PyInt H)
      {| _width := None; _height := None; _ar := Some (PyFraction ar);
         _fully_specified := fs |}
    = (Return tt,
       {| _width := Some (PyInt V); _height := Some (PyInt H);
          _ar := Some (PyFraction ar); _fully_specified := Some true |})
    /\ V * Zpos (Qden ar) <= H * Qnum ar < (V + 1) * Zpos (Qden ar).
Proof.
  intros HH Har. apply Qlt_0_num in Har.
  exists (Z.quot (H * Qnum ar) (Zpos (Qden ar))). split.
  - rewrite <- Qtrunc_mul. reflexivity.
  - rewrite Z.quot_div_nonneg by lia.
    pose proof (Z.mul_div_le (H * Qnum ar) (Zpos (Qden ar)) eq_refl).
    pose proof (Z.mul_succ_div_gt (H * Qnum ar) (Zpos (Qden ar)) eq_refl).
    lia.
Qed.

(** X12: What the constructor leaves behind when it returns, whatever the
    arguments: [_fully_specified] is unassigned exactly when no argument was
    given and [True] exactly when width and height were given; a dimension
    is defined when it was given or when the other one and the aspect ratio
    were; the aspect ratio is defined when it was given or when both
    dimensions were. *)
Theorem init_defines (width height aspect_ratio : option pynum)
  (box : BoxConstraints) :
  __init__ width height aspect_ratio = Return box ->
  (_fully_specified box = None
   <-> width = None /\ height = None /\ aspect_ratio = None)
  /\ (_fully_specified box = Some true
      <-> width <> None /\ height <> None)
  /\ (width_defined box = true
      <-> width <> None \/ (height <> None /\ aspect_ratio <> None))
  /\ (height_defined box = true
      <-> height <> None \/ (width <> None /\ aspect_ratio <> None))
  /\ (aspect_ratio_defined box = true
      <-> aspect_ratio <> None \/ (width <> None /\ height <> None)).
Proof.
  unfold __init__, int_or_None.
  destruct width as [w | ], height as [h | ], aspect_ratio as [ar | ];
    cbn [rbind Return];
    repeat (match goal with
            | |- context [pyint ?x] => destruct (pyint x) as [? | ?]
            | |- context [Fraction ?x ?y] => destruct (Fraction x y) as [? | ?]
            | |- context [pymul ?x ?y] => destruct (pymul x y) as [? | ?]
            | |- context [pytruediv ?x ?y] =>
                destruct (pytruediv x y) as [? | ?]
            end; cbn [rbind Return]);
    intros E; try discriminate E;
    inversion E; subst box;
    cbn [width_defined height_defined aspect_ratio_defined
         _width _height _ar _fully_specified
         with_width with_height with_ar with_fully_specified fst snd];
    intuition congruence.
Qed.

(** X13: Degenerate arguments: a height of zero next to a width, and an aspect
    ratio of zero next to a width, make the constructor raise
    [ZeroDivisionError]; an aspect ratio of zero next to a height is
    accepted and gives the width zero. *)
Theorem init_degenerate (w h : Z) (ar : Q) :
  (ar == 0)%Q ->
  __init__ (Some (PyInt w)) (Some (PyInt 0)) None = Raise ZeroDivisionError
  /\ __init__ (Some (PyInt w)) None (Some (PyFraction ar))
     = Raise ZeroDivisionError
  /\ __init__ None (Some (PyInt h)) (Some (PyFraction ar))
     = Return {| _width := Some (PyFraction (0 # 1));
                 _height := Some (PyInt h);
                 _ar := Some (PyFraction ar);
                 _fully_specified := Some false |}.
Proof.
  intros Har.
  assert (Hn : Qnum ar = 0).
  { unfold Qeq in Har. cbn [Qnum Qden] in Har. lia. }
  split; [reflexivity | split].
  - unfold __init__, int_or_None, pyint, pytruediv, arith, as_rational. run.
    rewrite Hn. reflexivity.
  - unfold __init__, int_or_None, pyint, pymul, arith, as_rational, mkFraction.
    run. cbn [with_ar with_width with_fully_specified fst snd
              _width _height _ar].
    destruct ar as [n d]. cbn [Qnum] in Hn. subst n.
    unfold Qmult, inject_Z. cbn [Qnum Qden]. rewrite Z.mul_0_r.
    reflexivity.
Qed.

(** ** Order of numbers *)

Lemma xcompare_antisym (x y : xreal) :
  xcompare y x = option_map CompOpp (xcompare x y).
Proof.
  destruct x as [ | [ | ] | p], y as [ | [ | ] | q]; cbn [xcompare option_map];
    try reflexivity.
  rewrite Qcompare_antisym. reflexivity.
Qed.

Lemma pycompare_antisym (a b : pynum) :
  pycompare b a = option_map CompOpp (pycompare a b).
Proof.
  destruct a, b; cbn [pycompare]; try apply xcompare_antisym.
  cbn [option_map]. rewrite Z.compare_antisym. reflexivity.
Qed.

Lemma pygt_pylt (a b : pynum) : pygt a b = pylt b a.
Proof.
  unfold pygt, pylt. rewrite (pycompare_antisym a b).
  destruct (pycompare a b) as [[ | | ] | ]; reflexivity.
Qed.

Lemma pygt_irrefl (a : pynum) : pygt a a = false.
Proof.
  unfold pygt.
  assert (H : pycompare a a = Some Eq \/ pycompare a a = None).
  { destruct a as [n | q | f]; cbn [pycompare value].
    - left. rewrite Z.compare_refl. reflexivity.
    - left. cbn [xcompare]. f_equal. apply Qeq_alt. reflexivity.
    - destruct (f_classify f) as [ | [ | ] | q]; cbn [xcompare];
        [right | left | left | left]; try reflexivity.
      f_equal. apply Qeq_alt. reflexivity. }
  destruct H as [H | H]; rewrite H; reflexivity.
Qed.

(** [min] returns nothing greater than one of its arguments. *)
Lemma pymin2_le (a b : pynum) :
  pygt (pymin2 a b) a = false /\ pygt (pymin2 a b) b = false.
Proof.
  unfold pymin2. destruct (pylt b a) eqn:E.
  - split; [ | apply pygt_irrefl].
    unfold pylt in E. unfold pygt.
    destruct (pycompare b a) as [[ | | ] | ]; try discriminate E; reflexivity.
  - split; [apply pygt_irrefl | ].
    rewrite pygt_pylt. exact E.
Qed.

Lemma pymin3_le_last (a b c : pynum) : pygt (pymin3 a b c) c = false.
Proof.
  unfold pymin3. destruct (pylt c (pymin2 a b)) eqn:E.
  - apply pygt_irrefl.
  - rewrite pygt_pylt. exact E.
Qed.

(** ** fit: what it leaves alone *)

(** One step of a computation on a world given by its two components. *)
Ltac mstep :=
  cbv beta iota zeta delta
    [bind lift ret raise get modify rbind Return Raise fst snd
     on_box on_logger logger_warning container_box records].

Lemma keeps_sized_box_bind {A B : Type} (m : M World A) (k : A -> M World B) :
  keeps_sized_box m -> (forall a, keeps_sized_box (k a)) ->
  keeps_sized_box (bind m k).
Proof.
  intros Hm Hk w Hw Hh. unfold bind.
  specialize (Hm w Hw Hh).
  destruct (m w) as [[e | a] w1]; cbn [snd] in *.
  - exact Hm.
  - rewrite <- Hm. apply Hk; rewrite Hm; assumption.
Qed.

Lemma keeps_sized_box_lift {A : Type} (r : result A) :
  keeps_sized_box (lift r).
Proof. intros w _ _. reflexivity. Qed.

Lemma keeps_sized_box_ret {A : Type} (a : A) : keeps_sized_box (ret a).
Proof. intros w _ _. reflexivity. Qed.

Lemma keeps_sized_box_get : keeps_sized_box (on_box get).
Proof. intros w _ _. reflexivity. Qed.

Lemma keeps_sized_box_aln_width (a : AxisAlignment) (i pre post : pynum) :
  keeps_sized_box (_aln_width a i pre post).
Proof.
  intros [box log] Hw Hh. cbn [container_box] in *.
  unfold _aln_width. mstep. unfold width_defined, width in *.
  destruct (_width box) as [cw | ]; [ | discriminate Hw].
  mstep. destruct (align a cw i pre post log); reflexivity.
Qed.

Lemma keeps_sized_box_aln_height (a : AxisAlignment) (i pre post : pynum) :
  keeps_sized_box (_aln_height a i pre post).
Proof.
  intros [box log] Hw Hh. cbn [container_box] in *.
  unfold _aln_height. mstep. unfold height_defined, height in *.
  destruct (_height box) as [ch | ]; [ | discriminate Hh].
  mstep. destruct (align a ch i pre post log); reflexivity.
Qed.

(** X14: [fit] does not touch a container that has its width and its height,
    whatever the numbers and the rule, and whether it returns or raises. *)
Theorem fit_keeps_sized_box (self : SimpleBoxLayoutRule)
  (inner_nat_width inner_nat_height : pynum) (w : World) :
  width_defined (container_box w) = true ->
  height_defined (container_box w) = true ->
  container_box (snd (fit self inner_nat_width inner_nat_height w))
  = container_box w.
Proof.
  revert w. change (keeps_sized_box (fit self inner_nat_width inner_nat_height)).
  unfold fit. cbv zeta.
  apply keeps_sized_box_bind; [apply keeps_sized_box_get | intros box].
  apply keeps_sized_box_bind.
  { destruct (negb _ && _ && _);
      [apply keeps_sized_box_lift | apply keeps_sized_box_ret]. }
  intros scales.
  apply keeps_sized_box_bind; [apply keeps_sized_box_lift | intros sw].
  apply keeps_sized_box_bind; [apply keeps_sized_box_aln_width | intros x].
  apply keeps_sized_box_bind; [apply keeps_sized_box_lift | intros sh].
  apply keeps_sized_box_bind; [apply keeps_sized_box_aln_height | intros y].
  apply keeps_sized_box_ret.
Qed.

Lemma log_grows_by_bind {A B : Type} (n1 n2 : nat)
  (m : M World A) (k : A -> M World B) :
  log_grows_by n1 m -> (forall a, log_grows_by n2 (k a)) ->
  log_grows_by (n1 + n2) (bind m k).
Proof.
  intros Hm Hk w. unfold bind.
  destruct (Hm w) as (x1 & E1 & L1).
  destruct (m w) as [[e | a] w1]; cbn [snd] in *.
  - exists x1. split; [exact E1 | lia].
  - destruct (Hk a w1) as (x2 & E2 & L2).
    exists (x1 ++ x2). rewrite E2, E1, <- app_assoc, length_app.
    split; [reflexivity | lia].
Qed.

Lemma log_grows_by_0 {A : Type} (m : M World A) :
  (forall w, records (snd (m w)) = records w) -> log_grows_by 0 m.
Proof.
  intros H w. exists []. rewrite app_nil_r. split; [apply H | reflexivity].
Qed.

Lemma log_grows_by_on_box {A : Type} (m : M BoxConstraints A) :
  log_grows_by 0 (on_box m).
Proof.
  apply log_grows_by_0. intros w. unfold on_box.
  destruct (m (container_box w)); reflexivity.
Qed.

Lemma log_grows_by_align (a : AxisAlignment) (c i pre post : pynum) :
  log_grows_by 1 (on_logger (align a c i pre post)).
Proof.
  intros w. unfold on_logger.
  destruct (align_log a c i pre post (records w)) as [H | [_ H]];
    destruct (align a c i pre post (records w)) as [r log']; cbn [snd] in *.
  - exists []. rewrite app_nil_r. split; [exact H | cbn; lia].
  - inversion H; subst. eexists. split; [reflexivity | cbn; lia].
Qed.

Lemma log_grows_by_aln_width (a : AxisAlignment) (i pre post : pynum) :
  log_grows_by 1 (_aln_width a i pre post).
Proof.
  unfold _aln_width.
  apply (log_grows_by_bind 0 1); [apply log_grows_by_on_box | intros box].
  destruct (width_defined box).
  - apply (log_grows_by_bind 0 1); [ | intros cw; apply log_grows_by_align].
    apply log_grows_by_0. reflexivity.
  - apply (log_grows_by_bind 0 1); [apply log_grows_by_0; reflexivity | ].
    intros v.
    apply (log_grows_by_bind 0 1); [apply log_grows_by_on_box | intros _].
    exists []. rewrite app_nil_r. split; [reflexivity | cbn; lia].
Qed.

Lemma log_grows_by_aln_height (a : AxisAlignment) (i pre post : pynum) :
  log_grows_by 1 (_aln_height a i pre post).
Proof.
  unfold _aln_height.
  apply (log_grows_by_bind 0 1); [apply log_grows_by_on_box | intros box].
  destruct (height_defined box).
  - apply (log_grows_by_bind 0 1); [ | intros ch; apply log_grows_by_align].
    apply log_grows_by_0. reflexivity.
  - apply (log_grows_by_bind 0 1); [apply log_grows_by_0; reflexivity | ].
    intros v.
    apply (log_grows_by_bind 0 1); [apply log_grows_by_on_box | intros _].
    exists []. rewrite app_nil_r. split; [reflexivity | cbn; lia].
Qed.

(** X15: [fit] only appends to the log, and at most two records, one for each
    axis; this also holds when it raises. *)
Theorem fit_log_grows_by_two (self : SimpleBoxLayoutRule)
  (inner_nat_width inner_nat_height : pynum) (w : World) :
  exists extra,
    records (snd (fit self inner_nat_width inner_nat_height w))
    = records w ++ extra
    /\ (List.length extra <= 2)%nat.
Proof.
  revert w.
  change (log_grows_by 2 (fit self inner_nat_width inner_nat_height)).
  unfold fit. cbv zeta.
  apply (log_grows_by_bind 0 2); [apply log_grows_by_on_box | intros box].
  apply (log_grows_by_bind 0 2).
  { apply log_grows_by_0. intros w.
    destruct (negb _ && _ && _); reflexivity. }
  intros scales.
  apply (log_grows_by_bind 0 2); [apply log_grows_by_0; reflexivity | ].
  intros sw.
  apply (log_grows_by_bind 1 1); [apply log_grows_by_aln_width | intros x].
  apply (log_grows_by_bind 0 1); [apply log_grows_by_0; reflexivity | ].
  intros sh.
  apply (log_grows_by_bind 1 0); [apply log_grows_by_aln_height | intros y].
  apply log_grows_by_0. reflexivity.
Qed.

(** ** fit: which exceptions it raises *)

Lemma builtin_not_underspecified {A : Type} (r : result A) :
  raises_builtin r -> r <> inl BoxSpecificationError.
Proof. intros H E. apply H in E. discriminate E. Qed.

Lemma rbind_not_underspecified {A B : Type} (r : result A) (k : A -> result B) :
  r <> inl BoxSpecificationError ->
  (forall a, k a <> inl BoxSpecificationError) ->
  rbind r k <> inl BoxSpecificationError.
Proof.
  intros Hr Hk. destruct r as [e | a]; cbn [rbind].
  - intros E. apply Hr. inversion E. reflexivity.
  - apply Hk.
Qed.

Lemma pyadd_builtin (a b : pynum) : raises_builtin (pyadd a b).
Proof. apply arith_builtin; intros; apply raises_builtin_return. Qed.

Lemma pysub_builtin (a b : pynum) : raises_builtin (pysub a b).
Proof. apply arith_builtin; intros; apply raises_builtin_return. Qed.

Lemma pyfloordiv_builtin (a b : pynum) : raises_builtin (pyfloordiv a b).
Proof.
  apply arith_builtin; intros x y e.
  - destruct (y =? 0); intros H; inversion H; reflexivity.
  - destruct (Qnum y =? 0); intros H; inversion H; reflexivity.
  - destruct (is_zero_num (PyFloat y)); intros H; inversion H; reflexivity.
Qed.

Lemma effective_not_underspecified (dim_name : string) (c pre post : pynum) :
  effective dim_name c pre post <> inl BoxSpecificationError.
Proof.
  unfold effective.
  apply rbind_not_underspecified;
    [apply builtin_not_underspecified, pysub_builtin | intros d].
  apply rbind_not_underspecified;
    [apply builtin_not_underspecified, pysub_builtin | intros eff].
  destruct (pylt eff (PyInt 0)); discriminate.
Qed.

Lemma never_underspecified_bind {S A B : Type} (m : M S A) (k : A -> M S B) :
  never_underspecified m -> (forall a, never_underspecified (k a)) ->
  never_underspecified (bind m k).
Proof.
  intros Hm Hk s. unfold bind. specialize (Hm s).
  destruct (m s) as [[e | a] s1]; [ | apply Hk].
  cbn [fst] in *. intros E. apply Hm. inversion E. reflexivity.
Qed.

Lemma never_underspecified_lift {S A : Type} (r : result A) :
  r <> inl BoxSpecificationError -> never_underspecified (@lift S A r).
Proof. intros H s. exact H. Qed.

Lemma never_underspecified_ret {S A : Type} (a : A) :
  never_underspecified (@ret S A a).
Proof. intros s. discriminate. Qed.

Lemma never_underspecified_on_logger {A : Type} (m : M (list LogRecord) A) :
  never_underspecified m -> never_underspecified (on_logger m).
Proof.
  intros H w. unfold on_logger. specialize (H (records w)).
  destruct (m (records w)); exact H.
Qed.

Lemma align_never_underspecified (a : AxisAlignment) (c i pre post : pynum) :
  never_underspecified (align a c i pre post).
Proof.
  unfold align.
  apply never_underspecified_bind;
    [apply never_underspecified_lift, effective_not_underspecified | ].
  intros eff. destruct a.
  - apply never_underspecified_ret.
  - destruct (pygt i eff).
    + apply never_underspecified_bind; [ | intros _; apply never_underspecified_ret].
      intros s. discriminate.
    + apply never_underspecified_bind; [ | intros off].
      * apply never_underspecified_lift, rbind_not_underspecified;
          [apply builtin_not_underspecified, pysub_builtin | intros d].
        apply builtin_not_underspecified, pyfloordiv_builtin.
      * apply never_underspecified_lift, builtin_not_underspecified,
          pyadd_builtin.
  - apply never_underspecified_lift, rbind_not_underspecified;
      [apply builtin_not_underspecified, pysub_builtin | intros d].
    apply builtin_not_underspecified, pysub_builtin.
Qed.

Lemma autosize_not_underspecified (i pre post : pynum) :
  (s <~ pyadd i pre ;; pyadd s post)%py <> inl BoxSpecificationError.
Proof.
  apply rbind_not_underspecified;
    [apply builtin_not_underspecified, pyadd_builtin | intros d].
  apply builtin_not_underspecified, pyadd_builtin.
Qed.

Lemma aln_width_never_underspecified (a : AxisAlignment) (i pre post : pynum) :
  never_underspecified (_aln_width a i pre post).
Proof.
  intros [box log]. unfold _aln_width.
  pose proof (autosize_not_underspecified i pre post) as Hv.
  destruct (s <~ pyadd i pre ;; pyadd s post)%py as [e | v]; mstep;
    unfold width_defined, width; destruct (_width box) as [cw | ] eqn:E; mstep;
    try (pose proof (align_never_underspecified a cw i pre post log) as H;
         destruct (align a cw i pre post log); exact H).
  - exact Hv.
  - unfold width_setter. mstep. rewrite E. mstep.
    pose proof (_recalculate_builtin (with_width (Some v) box)) as Hr.
    destruct (_recalculate (with_width (Some v) box)) as [[e | []] b];
      mstep; [ | discriminate].
    intros H. inversion H; subst e. specialize (Hr _ eq_refl). discriminate Hr.
Qed.

Lemma aln_height_never_underspecified (a : AxisAlignment) (i pre post : pynum) :
  never_underspecified (_aln_height a i pre post).
Proof.
  intros [box log]. unfold _aln_height.
  pose proof (autosize_not_underspecified i pre post) as Hv.
  destruct (s <~ pyadd i pre ;; pyadd s post)%py as [e | v]; mstep;
    unfold height_defined, height; destruct (_height box) as [ch | ] eqn:E; mstep;
    try (pose proof (align_never_underspecified a ch i pre post log) as H;
         destruct (align a ch i pre post log); exact H).
  - exact Hv.
  - unfold height_setter. mstep. rewrite E. mstep.
    pose proof (_recalculate_builtin (with_height (Some v) box)) as Hr.
    destruct (_recalculate (with_height (Some v) box)) as [[e | []] b];
      mstep; [ | discriminate].
    intros H. inversion H; subst e. specialize (Hr _ eq_refl). discriminate Hr.
Qed.

(** X16: [fit] never raises [BoxSpecificationError]: it reads a dimension only
    after checking that it is defined, and assigns one only when it is not. *)
Theorem fit_never_underspecified (self : SimpleBoxLayoutRule)
  (inner_nat_width inner_nat_height : pynum) (w : World) :
  fst (fit self inner_nat_width inner_nat_height w)
  <> Raise BoxSpecificationError.
Proof.
  revert w.
  change (never_underspecified (fit self inner_nat_width inner_nat_height)).
  unfold fit. cbv zeta.
  apply never_underspecified_bind; [intros w; discriminate | intros box].
  apply never_underspecified_bind.
  { destruct (negb _ && width_defined box && height_defined box) eqn:C;
      [ | apply never_underspecified_ret].
    apply andb_prop in C as [C Hh]. apply andb_prop in C as [_ Hw].
    unfold width_defined in Hw. unfold height_defined in Hh.
    unfold width, height.
    destruct (_width box) as [cw | ]; [ | discriminate Hw].
    destruct (_height box) as [ch | ]; [ | discriminate Hh].
    apply never_underspecified_lift. cbn [rbind Return].
    apply rbind_not_underspecified;
      [apply effective_not_underspecified | intros ew].
    apply rbind_not_underspecified;
      [apply effective_not_underspecified | intros eh].
    apply rbind_not_underspecified;
      [apply builtin_not_underspecified, pytruediv_builtin | intros xs].
    apply rbind_not_underspecified;
      [apply builtin_not_underspecified, pytruediv_builtin | intros ys].
    destruct (inner_content_scaling self); discriminate. }
  intros scales.
  apply never_underspecified_bind;
    [apply never_underspecified_lift, builtin_not_underspecified,
       pymul_builtin | intros sw].
  apply never_underspecified_bind;
    [apply aln_width_never_underspecified | intros x].
  apply never_underspecified_bind;
    [apply never_underspecified_lift, builtin_not_underspecified,
       pymul_builtin | intros sh].
  apply never_underspecified_bind;
    [apply aln_height_never_underspecified | intros y].
  apply never_underspecified_ret.
Qed.

(** ** fit: the scales *)

Lemma fit_scales_inv (self : SimpleBoxLayoutRule)
  (inner_nat_width inner_nat_height : pynum) (w w' : World) (p : Positioning) :
  fit self inner_nat_width inner_nat_height w = (inr p, w') ->
  if negb (InnerScaling_eqb (inner_content_scaling self) NO_SCALING)
     && width_defined (container_box w) && height_defined (container_box w)
  then
    exists cw ch ew eh xs ys,
      _width (container_box w) = Some cw /\ _height (container_box w) = Some ch
      /\ effective_width (margins self) cw = inr ew
      /\ effective_height (margins self) ch = inr eh
      /\ pytruediv ew inner_nat_width = inr xs
      /\ pytruediv eh inner_nat_height = inr ys
      /\ (x_scale p, y_scale p)
         = match inner_content_scaling self with
           | STRETCH_TO_FIT => (pymin2 xs ys, pymin2 xs ys)
           | SHRINK_TO_FIT =>
               (pymin3 xs ys (PyInt 1), pymin3 xs ys (PyInt 1))
           | STRETCH_FILL | NO_SCALING => (xs, ys)
           end
  else (x_scale p, y_scale p) = (PyInt 1, PyInt 1).
Proof.
  intros H. unfold fit in H. cbv zeta in H.
  apply bind_inr in H as (box & w1 & Hbox & H).
  assert (box = container_box w) as -> by (inversion Hbox; reflexivity).
  apply bind_inr in H as (scales & w2 & Hscales & H).
  apply bind_inr in H as (sw & w3 & _ & H).
  apply bind_inr in H as (xp & w4 & _ & H).
  apply bind_inr in H as (sh & w5 & _ & H).
  apply bind_inr in H as (yp & w6 & _ & H).
  inversion H; subst p w'; clear H. cbn [x_scale y_scale].
  destruct (negb (InnerScaling_eqb (inner_content_scaling self) NO_SCALING)
            && width_defined (container_box w)
            && height_defined (container_box w)).
  - apply lift_inr in Hscales as [Hscales _].
    apply rbind_inr in Hscales as (cw & Hcw & Hscales).
    apply rbind_inr in Hscales as (ew & Hew & Hscales).
    apply rbind_inr in Hscales as (ch & Hch & Hscales).
    apply rbind_inr in Hscales as (eh & Heh & Hscales).
    apply rbind_inr in Hscales as (xs & Hxs & Hscales).
    apply rbind_inr in Hscales as (ys & Hys & Hscales).
    exists cw, ch, ew, eh, xs, ys.
    unfold width in Hcw. unfold height in Hch.
    destruct (_width (container_box w)) as [cw' | ]; [ | discriminate Hcw].
    destruct (_height (container_box w)) as [ch' | ]; [ | discriminate Hch].
    inversion Hcw; inversion Hch; subst cw' ch'.
    repeat match goal with |- _ /\ _ => split end;
      try reflexivity; try assumption.
    destruct (inner_content_scaling self); inversion Hscales; reflexivity.
  - inversion Hscales. reflexivity.
Qed.

(** X17: Unless the policy is [STRETCH_FILL], the two scales that [fit] returns
    are the same number: the content keeps its proportions. *)
Theorem fit_uniform_scale (self : SimpleBoxLayoutRule)
  (inner_nat_width inner_nat_height : pynum) (w w' : World) (p : Positioning) :
  inner_content_scaling self <> STRETCH_FILL ->
  fit self inner_nat_width inner_nat_height w = (Return p, w') ->
  x_scale p = y_scale p.
Proof.
  intros Hpolicy H. apply fit_scales_inv in H.
  destruct (negb _ && _ && _) eqn:C.
  - destruct H as (cw & ch & ew & eh & xs & ys & _ & _ & _ & _ & _ & _ & E).
    apply andb_prop in C as [C _]. apply andb_prop in C as [C _].
    destruct (inner_content_scaling self); injection E as Ex Ey;
      try congruence; discriminate C.
  - injection H as Ex Ey. congruence.
Qed.

(** X18: With [SHRINK_TO_FIT] the scale that [fit] returns is never greater
    than 1: the content is not enlarged. *)
Theorem fit_shrink_never_enlarges (self : SimpleBoxLayoutRule)
  (inner_nat_width inner_nat_height : pynum) (w w' : World) (p : Positioning) :
  inner_content_scaling self = SHRINK_TO_FIT ->
  fit self inner_nat_width inner_nat_height w = (Return p, w') ->
  pygt (x_scale p) (PyInt 1) = false /\ pygt (y_scale p) (PyInt 1) = false.
Proof.
  intros Hpolicy H. apply fit_scales_inv in H. rewrite Hpolicy in H.
  destruct (negb _ && _ && _).
  - destruct H as (cw & ch & ew & eh & xs & ys & _ & _ & _ & _ & _ & _ & E).
    injection E as Ex Ey. rewrite Ex, Ey.
    split; apply pymin3_le_last.
  - injection H as Ex Ey. rewrite Ex, Ey. split; reflexivity.
Qed.

(** X19: With [STRETCH_TO_FIT] on a container that has its width and height,
    the common scale is greater than neither of the two quotients
    effective length / natural length. *)
Theorem fit_stretch_to_fit_bounded (self : SimpleBoxLayoutRule)
  (inner_nat_width inner_nat_height : pynum) (w w' : World) (p : Positioning)
  (cw ch ew eh xs ys : pynum) :
  inner_content_scaling self = STRETCH_TO_FIT ->
  _width (container_box w) = Some cw ->
  _height (container_box w) = Some ch ->
  effective_width (margins self) cw = Return ew ->
  effective_height (margins self) ch = Return eh ->
  pytruediv ew inner_nat_width = Return xs ->
  pytruediv eh inner_nat_height = Return ys ->
  fit self inner_nat_width inner_nat_height w = (Return p, w') ->
  x_scale p = y_scale p
  /\ pygt (x_scale p) xs = false /\ pygt (x_scale p) ys = false.
Proof.
  intros Hpolicy Hcw Hch Hew Heh Hxs Hys H. unfold Return in *.
  apply fit_scales_inv in H. rewrite Hpolicy in H.
  unfold width_defined, height_defined in H. rewrite Hcw, Hch in H.
  cbn [InnerScaling_eqb negb andb] in H.
  destruct H as (cw' & ch' & ew' & eh' & xs' & ys'
                 & Hcw' & Hch' & Hew' & Heh' & Hxs' & Hys' & E).
  assert (cw' = cw) by congruence. assert (ch' = ch) by congruence.
  subst cw' ch'.
  assert (ew' = ew) by congruence. assert (eh' = eh) by congruence.
  subst ew' eh'.
  assert (xs' = xs) by congruence. assert (ys' = ys) by congruence.
  subst xs' ys'.
  injection E as Ex Ey. rewrite Ex, Ey.
  split; [reflexivity | apply pymin2_le].
Qed.

(** ** fit on integers without scaling *)

(** Without scaling, on a container with integer width and height, [fit]
    is the alignment along x followed by the alignment along y. *)
Lemma fit_no_scaling_sized (self : SimpleBoxLayoutRule) (w h W H : Z)
  (ar : option pynum) (fs : option bool) (log : list LogRecord) :
  inner_content_scaling self = NO_SCALING ->
  let m := margins self in
  let box := {| _width := Some (PyInt W); _height := Some (PyInt H);
                _ar := ar; _fully_specified := fs |} in
  fit self (PyInt w) (PyInt h) {| container_box := box; records := log |}
  = match align (x_align self) (PyInt W) (PyInt w)
            (PyInt (left m)) (PyInt (right m)) log with
    | (inl e, log1) => (inl e, {| container_box := box; records := log1 |})
    | (inr x, log1) =>
        match align (y_align self) (PyInt H) (PyInt h)
                (PyInt (bottom m)) (PyInt (top m)) log1 with
        | (inl e, log2) =>
            (inl e, {| container_box := box; records := log2 |})
        | (inr y, log2) =>
            (inr {| x_pos := x; y_pos := y;
                    x_scale := PyInt 1; y_scale := PyInt 1 |},
             {| container_box := box; records := log2 |})
        end
    end.
Proof.
  intros Hpolicy m box. subst m box.
  unfold fit. cbv zeta. rewrite Hpolicy.
  exec_to_align. rewrite !Z.mul_1_r.
  destruct (align (x_align self) _ _ _ _ log) as [[e | x] log1];
    [reflexivity | ].
  destruct (align (y_align self) _ _ _ _ log1) as [[e | y] log2];
    reflexivity.
Qed.

(** X20: Without scaling, content that fits between the margins of a container
    with integer width and height is placed between them on both axes;
    nothing is logged and the container is unchanged. *)
Theorem fit_no_scaling_within_margins (self : SimpleBoxLayoutRule)
  (w h W H : Z) (ar : option pynum) (fs : option bool)
  (log : list LogRecord) :
  inner_content_scaling self = NO_SCALING ->
  let m := margins self in
  left m + right m <= W -> w <= W - left m - right m ->
  bottom m + top m <= H -> h <= H - bottom m - top m ->
  let world :=
    {| container_box :=
         {| _width := Some (PyInt W); _height := Some (PyInt H);
            _ar := ar; _fully_specified := fs |};
       records := log |} in
  exists x y,
    fit self (PyInt w) (PyInt h) world
    = (Return {| x_pos := PyInt x; y_pos := PyInt y;
                 x_scale := PyInt 1; y_scale := PyInt 1 |}, world)
    /\ left m <= x /\ x + w <= W - right m
    /\ bottom m <= y /\ y + h <= H - top m.
Proof.
  intros Hpolicy m HW Hw HH Hh world. subst world.
  rewrite (fit_no_scaling_sized self w h W H ar fs log Hpolicy).
  cbv zeta. fold m.
  destruct (align_int_fits (x_align self) W w (left m) (right m) log HW Hw)
    as (x & Ex & Hx).
  destruct (align_int_fits (y_align self) H h (bottom m) (top m) log HH Hh)
    as (y & Ey & Hy).
  rewrite Ex, Ey. exists x, y. split; [reflexivity | lia].
Qed.

(** In a container with no free space every alignment returns the
    pre-margin. *)
Lemma align_exact_fit (self : AxisAlignment) (i pre post : Z)
  (log : list LogRecord) :
  0 <= i ->
  align self (PyInt (i + pre + post)) (PyInt i) (PyInt pre) (PyInt post) log
  = (Return (PyInt pre), log).
Proof.
  intros Hi. rewrite align_int by lia.
  destruct self.
  - reflexivity.
  - destruct (Z.gtb_spec i (i + pre + post - pre - post)); [lia | ].
    replace (i + pre + post - pre - post - i) with 0 by lia.
    rewrite Z.add_0_r. reflexivity.
  - do 3 f_equal. lia.
Qed.

(** [fit] on a box without width, height and aspect ratio. *)
Lemma fit_autosize (self : SimpleBoxLayoutRule) (w h : Z) (fs : option bool)
  (log : list LogRecord) :
  h + bottom (margins self) + top (margins self) <> 0 ->
  let m := margins self in
  fit self (PyInt w) (PyInt h)
      {| container_box :=
           {| _width := None; _height := None; _ar := None;
              _fully_specified := fs |};
         records := log |}
  = (Return {| x_pos := PyInt (left m); y_pos := PyInt (bottom m);
               x_scale := PyInt 1; y_scale := PyInt 1 |},
     {| container_box :=
          {| _width := Some (PyInt (w + left m + right m));
             _height := Some (PyInt (h + bottom m + top m));
             _ar := Some (mkFraction (inject_Z (w + left m + right m)
                                      / inject_Z (h + bottom m + top m)));
             _fully_specified := Some true |};
        records := log |}).
Proof.
  intros Hnz m. subst m.
  unfold fit. cbv zeta. run. cbn [container_box].
  rewrite no_width_no_scaling by reflexivity.
  exec. rewrite !Z.mul_1_r.
  apply Z.eqb_neq in Hnz. rewrite Hnz.
  reflexivity.
Qed.

(** X21: Fitting the same content a second time, without scaling, into the
    container that a first [fit] has sized: whatever the alignments of the
    second rule, the offsets are again the left and the bottom margin, and
    the container and the log stay as the first call left them. *)
Theorem fit_again_after_autosize (self self' : SimpleBoxLayoutRule)
  (w h : Z) (fs : option bool) (log : list LogRecord) :
  0 <= w -> 0 <= h ->
  h + bottom (margins self) + top (margins self) <> 0 ->
  margins self' = margins self ->
  inner_content_scaling self' = NO_SCALING ->
  let m := margins self in
  let p := {| x_pos := PyInt (left m); y_pos := PyInt (bottom m);
              x_scale := PyInt 1; y_scale := PyInt 1 |} in
  let first := fit self (PyInt w) (PyInt h)
                 {| container_box :=
                      {| _width := None; _height := None; _ar := None;
                         _fully_specified := fs |};
                    records := log |} in
  fst first = Return p
  /\ fit self' (PyInt w) (PyInt h) (snd first) = (Return p, snd first).
Proof.
  intros Hw Hh Hnz Hm Hpolicy m p first. subst first p.
  rewrite (fit_autosize self w h fs log Hnz). fold m. cbn [fst snd].
  split; [reflexivity | ].
  rewrite (fit_no_scaling_sized self' w h _ _ _ _ log Hpolicy).
  cbv zeta. rewrite Hm. fold m.
  rewrite !align_exact_fit by assumption.
  reflexivity.
Qed.

(** ** Assignments in sequence *)

(** X23: On a box without aspect ratio the two dimensions can be assigned in
    either order: the outcome, box and exception included, is the same. *)
Theorem setters_commute_without_ratio (v u : pynum) (fs : option bool) :
  let box := {| _width := None; _height := None; _ar := None;
                _fully_specified := fs |} in
  (width_setter v ;;; height_setter u)%py box
  = (height_setter u ;;; width_setter v)%py box.
Proof.
  cbv zeta. unfold width_setter, height_setter, _recalculate.
  cbv beta iota zeta delta
    [bind lift ret raise get modify fst snd _width _height _ar
     _fully_specified with_width with_height with_ar with_fully_specified].
  destruct (Fraction v u); reflexivity.
Qed.

(** X24: On a box with an aspect ratio only one dimension can be assigned: once
    the width has been assigned, assigning the height raises
    [BoxSpecificationError] and changes nothing, and the other way round. *)
Theorem ratio_box_single_assignment (self box' : BoxConstraints) (v u : pynum) :
  _ar self <> None ->
  (_width self = None -> width_setter v self = (Return tt, box') ->
   height_setter u box' = (Raise BoxSpecificationError, box'))
  /\ (_height self = None -> height_setter v self = (Return tt, box') ->
      width_setter u box' = (Raise BoxSpecificationError, box')).
Proof.
  intros Har. split; intros E H.
  - unfold width_setter in H. revert H. run. rewrite E. run.
    destruct (_recalculate (with_width (Some v) self)) as [[e | []] b] eqn:R;
      intros H; inversion H; subst b.
    apply _recalculate_known in R.
    destruct self as [sw [sh | ] [sar | ] sfs]; try contradiction;
      cbn in R; destruct R as [R _];
      unfold complete in R;
      apply andb_prop in R as [R _]; apply andb_prop in R as [_ R];
      unfold height_defined in R; unfold height_setter; run;
      destruct (_height box'); [reflexivity | discriminate R
                               | reflexivity | discriminate R].
  - unfold height_setter in H. revert H. run. rewrite E. run.
    destruct (_recalculate (with_height (Some v) self)) as [[e | []] b] eqn:R;
      intros H; inversion H; subst b.
    apply _recalculate_known in R.
    destruct self as [[sw | ] sh [sar | ] sfs]; try contradiction;
      cbn in R; destruct R as [R _];
      unfold complete in R;
      apply andb_prop in R as [R _]; apply andb_prop in R as [R _];
      unfold width_defined in R; unfold width_setter; run;
      destruct (_width box'); [reflexivity | discriminate R
                              | reflexivity | discriminate R].
Qed.

(** ** fit completes the container *)

Lemma aln_width_defines (a : AxisAlignment) (i pre post x : pynum)
  (s s' : World) :
  _aln_width a i pre post s = (inr x, s') ->
  width_defined (container_box s') = true.
Proof.
  destruct s as [box log]. unfold _aln_width.
  destruct (s <~ pyadd i pre ;; pyadd s post)%py as [e | v]; mstep;
    unfold width_defined at 1, width;
    destruct (_width box) as [cw | ] eqn:E; mstep;
    try (destruct (align a cw i pre post log) as [[e' | o] log'];
         intros H; inversion H; subst; cbn [container_box];
         unfold width_defined; rewrite E; reflexivity);
    try discriminate.
  unfold width_setter. mstep. rewrite E. mstep.
  destruct (_recalculate_frame (with_width (Some v) box)) as (_ & Hkeep & _).
  specialize (Hkeep v eq_refl).
  destruct (_recalculate (with_width (Some v) box)) as [[e | []] b];
    mstep; intros H; inversion H; subst; cbn [container_box snd] in *.
  unfold width_defined. rewrite Hkeep. reflexivity.
Qed.

Lemma aln_height_defines (a : AxisAlignment) (i pre post y : pynum)
  (s s' : World) :
  _aln_height a i pre post s = (inr y, s') ->
  height_defined (container_box s') = true
  /\ (width_defined (container_box s) = true ->
      width_defined (container_box s') = true).
Proof.
  destruct s as [box log]. unfold _aln_height.
  destruct (s <~ pyadd i pre ;; pyadd s post)%py as [e | v]; mstep;
    unfold height_defined at 1, height;
    destruct (_height box) as [ch | ] eqn:E; mstep;
    try (destruct (align a ch i pre post log) as [[e' | o] log'];
         intros H; inversion H; subst; cbn [container_box];
         unfold height_defined; rewrite E; split; [reflexivity | auto]);
    try discriminate.
  unfold height_setter. mstep. rewrite E. mstep.
  destruct (_recalculate_frame (with_height (Some v) box))
    as (_ & Hkeepw & Hkeeph).
  specialize (Hkeeph v eq_refl).
  destruct (_recalculate (with_height (Some v) box)) as [[e | []] b];
    mstep; intros H; inversion H; subst; cbn [container_box snd] in *.
  split.
  - unfold height_defined. rewrite Hkeeph. reflexivity.
  - unfold width_defined. cbn [with_height _width] in Hkeepw.
    destruct (_width box) as [bw | ]; [ | discriminate].
    intros _. rewrite (Hkeepw bw eq_refl). reflexivity.
Qed.

(** X25: When [fit] returns, the container has its width and its height,
    whatever it had before and whatever the numbers. *)
Theorem fit_sizes_container (self : SimpleBoxLayoutRule)
  (inner_nat_width inner_nat_height : pynum) (w w' : World) (p : Positioning) :
  fit self inner_nat_width inner_nat_height w = (Return p, w') ->
  width_defined (container_box w') = true
  /\ height_defined (container_box w') = true.
Proof.
  intros H. unfold fit in H. cbv zeta in H. unfold Return in H.
  apply bind_inr in H as (box & w1 & _ & H).
  apply bind_inr in H as (scales & w2 & _ & H).
  apply bind_inr in H as (sw & w3 & _ & H).
  apply bind_inr in H as (xp & w4 & Hx & H).
  apply bind_inr in H as (sh & w5 & Hsh & H).
  apply bind_inr in H as (yp & w6 & Hy & H).
  inversion H; subst w'.
  apply lift_inr in Hsh as [_ ->].
  apply aln_width_defines in Hx.
  apply aln_height_defines in Hy as [Hh Hw].
  split; [apply Hw; exact Hx | exact Hh].
Qed.

End MoreProperties.

(** * The properties at concrete calls, on binary64 floats *)

#[local] Existing Instance binary64.

(** ** The examples of the documentation *)

(** X22: Flipping an alignment twice gives it back. *)
Lemma flipped_involutive (a : AxisAlignment) : flipped (flipped a) = a.
Proof. destruct a; reflexivity. Qed.

Example effective_100_10_10 :
  effective "width" (PyInt 100) (PyInt 10) (PyInt 10) = Return (PyInt 80)
  /\ effective "width" (PyInt 10) (PyInt 6) (PyInt 6) = Raise LayoutError.
Proof. split; reflexivity. Qed.

Example init_200_100 :
  __init__ (Some (PyInt 200)) (Some (PyInt 100)) None
  = Return (sized_box 200 100).
Proof. reflexivity. Qed.

Example fit_shrink_200_100 :
  fit (rule_of ALIGN_MID ALIGN_MID 0 SHRINK_TO_FIT) (PyInt 100) (PyInt 100)
      (world_of (sized_box 200 100))
  = (Return {| x_pos := PyFloat 50%float; y_pos := PyFloat 0%float;
               x_scale := PyFloat 1%float; y_scale := PyFloat 1%float |},
     world_of (sized_box 200 100)).
Proof. reflexivity. Qed.

Example fit_stretch_fill_200_100 :
  fit (rule_of ALIGN_MID ALIGN_MID 0 STRETCH_FILL) (PyInt 100) (PyInt 100)
      (world_of (sized_box 200 100))
  = (Return {| x_pos := PyFloat 0%float; y_pos := PyFloat 0%float;
               x_scale := PyFloat 2%float; y_scale := PyFloat 1%float |},
     world_of (sized_box 200 100)).
Proof. reflexivity. Qed.

(** ** Instances of the theorems *)

Lemma fit_scale_selection_shrink_200_100 :
  let self := rule_of ALIGN_MID ALIGN_MID 0 SHRINK_TO_FIT in
  let p := {| x_pos := PyFloat 50%float; y_pos := PyFloat 0%float;
              x_scale := PyFloat 1%float; y_scale := PyFloat 1%float |} in
  exists cw ch eff_width eff_height xs ys,
    _width (sized_box 200 100) = Some cw
    /\ _height (sized_box 200 100) = Some ch
    /\ effective_width (margins self) cw = Return eff_width
    /\ effective_height (margins self) ch = Return eff_height
    /\ pytruediv eff_width (PyInt 100) = Return xs
    /\ pytruediv eff_height (PyInt 100) = Return ys
    /\ (x_scale p = pymin3 xs ys (PyInt 1)
        /\ y_scale p = pymin3 xs ys (PyInt 1)).
Proof.
  intros self p.
  apply (fit_scale_selection self (PyInt 100) (PyInt 100)
           (world_of (sized_box 200 100)) (world_of (sized_box 200 100)) p).
  reflexivity.
Defined.

Lemma fit_unresolved_autosizes_100_50 :
  fit (rule_of ALIGN_MID ALIGN_MAX 3 SHRINK_TO_FIT) (PyInt 100) (PyInt 50)
      (world_of empty_box)
  = (Return {| x_pos := PyInt 3; y_pos := PyInt 3;
               x_scale := PyInt 1; y_scale := PyInt 1 |},
     world_of {| _width := Some (PyInt 106); _height := Some (PyInt 56);
                 _ar := Some (PyFraction (53 # 28));
                 _fully_specified := Some true |}).
Proof.
  apply (fit_unresolved_autosizes
           (rule_of ALIGN_MID ALIGN_MAX 3 SHRINK_TO_FIT) 100 50 empty_box []).
  - reflexivity.
  - reflexivity.
  - reflexivity.
  - discriminate.
Defined.

(** A box with an aspect ratio and no dimensions is not resized to the
    content along y: [BoxConstraints(aspect_ratio=Fraction(2))], content
    100 by 100, no margins.  The width becomes 100, the height 50 and not
    100, and [ALIGN_MAX] puts the content at -50 and not at the bottom
    margin 0. *)
Lemma fit_ratio_box_height_not_autosized :
  let box := ratio_box (2 # 1) in
  let out := fit (rule_of ALIGN_MIN ALIGN_MAX 0 NO_SCALING)
                 (PyInt 100) (PyInt 100) (world_of box) in
  _width box = None /\ _height box = None
  /\ _height (container_box (snd out)) = Some (PyInt 50)
  /\ _height (container_box (snd out)) <> Some (PyInt (100 + 0 + 0))
  /\ fst out = Return {| x_pos := PyInt 0; y_pos := PyInt (-50);
                         x_scale := PyInt 1; y_scale := PyInt 1 |}.
Proof.
  split; [reflexivity | split; [reflexivity | ]].
  split; [reflexivity | split; [discriminate | reflexivity]].
Qed.

Lemma align_offsets_100_20_5_5 :
  align ALIGN_MAX (PyInt 100) (PyInt 20) (PyInt 5) (PyInt 5) []
  = (Return (PyInt 75), [])
  /\ align ALIGN_MIN (PyInt 100) (PyInt 20) (PyInt 5) (PyInt 5) []
     = (Return (PyInt 5), [])
  /\ align ALIGN_MID (PyInt 100) (PyInt 20) (PyInt 5) (PyInt 5) []
     = (Return (PyInt 40), []).
Proof.
  assert (Hfit : 5 + 5 <= 100) by lia.
  destruct (align_offsets 100 20 5 5 [] Hfit) as (Hmax & Hmin & Hmid).
  split; [exact Hmax | split; [exact Hmin | apply Hmid; lia]].
Defined.

(** [ALIGN_MAX.align(10, 1, 6, 6)] raises [LayoutError]; it does not return
    [10 - 1 - 6]. *)
Lemma align_max_margins_too_wide_raises :
  align ALIGN_MAX (PyInt 10) (PyInt 1) (PyInt 6) (PyInt 6) []
  = (Raise LayoutError, [])
  /\ align ALIGN_MAX (PyInt 10) (PyInt 1) (PyInt 6) (PyInt 6) []
     <> (Return (PyInt (10 - 1 - 6)), []).
Proof. split; [reflexivity | discriminate]. Qed.

Lemma align_mid_overflow_100_95_5_5 :
  align ALIGN_MID (PyInt 100) (PyInt 95) (PyInt 5) (PyInt 5) []
  = (Return (PyInt 5),
     [Warning (PyInt 95) (PyInt 100) (PyInt 5) (PyInt 5)]).
Proof. apply (align_mid_overflow 100 95 5 5 []); lia. Defined.

Lemma init_overspecified_10_5_2 :
  __init__ (Some (PyInt 10)) (Some (PyInt 5)) (Some (PyFraction (2 # 1)))
  = Raise BoxSpecificationError
  /\ __init__ (Some (PyFraction (21 # 2))) (Some (PyInt 5)) (Some (PyInt 2))
     = Raise BoxSpecificationError.
Proof.
  split.
  - apply (init_overspecified (PyInt 10) (PyInt 5) (PyFraction (2 # 1))
             (PyInt 10) (PyInt 5)); reflexivity.
  - apply (init_overspecified (PyFraction (21 # 2)) (PyInt 5) (PyInt 2)
             (PyInt 10) (PyInt 5)); reflexivity.
Defined.

Lemma init_fully_specified_asymmetry_10_5_2 :
  __init__ None (Some (PyInt 5)) (Some (PyFraction (2 # 1)))
  = Return {| _width := Some (PyFraction (10 # 1));
              _height := Some (PyInt 5);
              _ar := Some (PyFraction (2 # 1));
              _fully_specified := Some false |}
  /\ __init__ (Some (PyInt 10)) None (Some (PyFraction (2 # 1)))
     = Return {| _width := Some (PyInt 10);
                 _height := Some (PyFraction (5 # 1));
                 _ar := Some (PyFraction (2 # 1));
                 _fully_specified := Some false |}
  /\ __init__ (Some (PyInt 10)) (Some (PyInt 5)) None
     = Return {| _width := Some (PyInt 10);
                 _height := Some (PyInt 5);
                 _ar := Some (PyFraction (2 # 1));
                 _fully_specified := Some true |}.
Proof.
  apply (init_fully_specified_asymmetry 10 5 (2 # 1)).
  - discriminate.
  - intros H. discriminate H.
Defined.

Lemma align_margins_too_wide_10_6_6 :
  align ALIGN_MIN (PyInt 10) (PyInt 1) (PyInt 6) (PyInt 6) []
  = (Raise LayoutError, []).
Proof. apply (align_margins_too_wide ALIGN_MIN 10 1 6 6 []). lia. Defined.

Lemma fit_ratio_box_derives_height_100_100 :
  fit (rule_of ALIGN_MIN ALIGN_MAX 0 SHRINK_TO_FIT) (PyInt 100) (PyInt 100)
      (world_of (ratio_box (2 # 1)))
  = (Return {| x_pos := PyInt 0; y_pos := PyInt (-50);
               x_scale := PyInt 1; y_scale := PyInt 1 |},
     world_of {| _width := Some (PyInt 100); _height := Some (PyInt 50);
                 _ar := Some (PyFraction (2 # 1));
                 _fully_specified := Some true |}).
Proof.
  apply (fit_ratio_box_derives_height
           (rule_of ALIGN_MIN ALIGN_MAX 0 SHRINK_TO_FIT) 100 100 (2 # 1)
           (Some false) []).
  intros H. discriminate H.
Defined.

(** Content of height 0 without margins on an empty box: the height is
    resolved to 0 and the aspect ratio [Fraction(100, 0)] of the
    recalculation raises [ZeroDivisionError]. *)
Example fit_zero_height_raises :
  fit (rule_of ALIGN_MIN ALIGN_MIN 0 SHRINK_TO_FIT) (PyInt 100) (PyInt 0)
      (world_of empty_box)
  = (Raise ZeroDivisionError,
     world_of {| _width := Some (PyInt 100); _height := Some (PyInt 0);
                 _ar := None; _fully_specified := None |}).
Proof. reflexivity. Qed.

(** [0 / -5] is [-0.0] and [1 / 3] is rounded to nearest. *)
Example int_truediv_values :
  pytruediv (PyInt 0) (PyInt (-5)) = Return (PyFloat (-0)%float)
  /\ pytruediv (PyInt 1) (PyInt 3) = Return (PyFloat 0x1.5555555555555p-2%float)
  /\ pytruediv (PyInt 1) (PyInt 0) = Raise ZeroDivisionError.
Proof. split; [reflexivity | split; reflexivity]. Qed.

(** ** Instances of the further properties *)

Lemma align_within_margins_100_20_5_5 :
  exists o,
    align ALIGN_MID (PyInt 100) (PyInt 20) (PyInt 5) (PyInt 5) []
    = (Return (PyInt o), [])
    /\ 5 <= o /\ o + 20 <= 100 - 5.
Proof. apply (align_within_margins ALIGN_MID 100 20 5 5 []); lia. Defined.

Lemma align_mid_centres_100_25_5_5 :
  exists o,
    align ALIGN_MID (PyInt 100) (PyInt 25) (PyInt 5) (PyInt 5) []
    = (Return (PyInt o), [])
    /\ o - 5 <= 100 - 5 - (o + 25) <= o - 5 + 1.
Proof. apply (align_mid_centres 100 25 5 5 []); lia. Defined.

Lemma align_flipped_mirrors_100_20_5_7 :
  exists o,
    align ALIGN_MID (PyInt 100) (PyInt 20) (PyInt 5) (PyInt 7) []
    = (Return (PyInt o), [])
    /\ align (flipped ALIGN_MID) (PyInt 100) (PyInt 20) (PyInt 7) (PyInt 5) []
       = (Return (PyInt (100 - 20 - o)), []).
Proof.
  apply (align_flipped_mirrors ALIGN_MID 100 20 5 7 []).
  - lia.
  - intros _. split; [lia | reflexivity].
Defined.

Lemma recalculate_completes_10_half :
  let box' := {| _width := Some (PyInt 10); _height := Some (PyInt 20);
                 _ar := Some (PyFraction (1 # 2));
                 _fully_specified := Some true |} in
  complete box' = true /\ _fully_specified box' = Some true.
Proof.
  apply (recalculate_completes
           {| _width := Some (PyInt 10); _height := None;
              _ar := Some (PyFraction (1 # 2)); _fully_specified := None |}).
  reflexivity.
Defined.

Lemma width_write_once_ratio_box :
  let box := snd (width_setter (PyInt 100) (ratio_box (2 # 1))) in
  width box = Return (PyInt 100)
  /\ width_setter (PyInt 7) box = (Raise BoxSpecificationError, box).
Proof.
  apply (width_write_once (ratio_box (2 # 1)) (PyInt 100) (PyInt 7)).
  reflexivity.
Defined.

Lemma height_write_once_empty_box :
  let box := snd (height_setter (PyInt 100) empty_box) in
  height box = Return (PyInt 100)
  /\ height_setter (PyInt 7) box = (Raise BoxSpecificationError, box).
Proof.
  apply (height_write_once empty_box (PyInt 100) (PyInt 7)).
  reflexivity.
Defined.

Lemma derived_height_within_one_100_3 :
  exists H,
    width_setter (PyInt 100) (ratio_box (3 # 1))
    = (Return tt,
       {| _width := Some (PyInt 100); _height := Some (PyInt H);
          _ar := Some (PyFraction (3 # 1)); _fully_specified := Some true |})
    /\ H * 3 <= 100 * 1 < (H + 1) * 3.
Proof.
  apply (derived_height_within_one 100 (3 # 1) (Some false));
    [lia | reflexivity].
Defined.

Lemma derived_width_within_one_7_3_2 :
  exists V,
    height_setter (PyInt 7) (ratio_box (3 # 2))
    = (Return tt,
       {| _width := Some (PyInt V); _height := Some (PyInt 7);
          _ar := Some (PyFraction (3 # 2)); _fully_specified := Some true |})
    /\ V * 2 <= 7 * 3 < (V + 1) * 2.
Proof.
  apply (derived_width_within_one 7 (3 # 2) (Some false));
    [lia | reflexivity].
Defined.

Lemma init_defines_width_and_ratio :
  let box := {| _width := Some (PyInt 10);
                _height := Some (PyFraction (5 # 1));
                _ar := Some (PyFraction (2 # 1));
                _fully_specified := Some false |} in
  (_fully_specified box = None
   <-> Some (PyInt 10) = None /\ @None pynum = None
       /\ Some (PyFraction (2 # 1)) = None)
  /\ (_fully_specified box = Some true
      <-> Some (PyInt 10) <> None /\ @None pynum <> None)
  /\ (width_defined box = true
      <-> Some (PyInt 10) <> None
          \/ (@None pynum <> None /\ Some (PyFraction (2 # 1)) <> None))
  /\ (height_defined box = true
      <-> @None pynum <> None
          \/ (Some (PyInt 10) <> None /\ Some (PyFraction (2 # 1)) <> None))
  /\ (aspect_ratio_defined box = true
      <-> Some (PyFraction (2 # 1)) <> None
          \/ (Some (PyInt 10) <> None /\ @None pynum <> None)).
Proof.
  apply (init_defines (Some (PyInt 10)) None (Some (PyFraction (2 # 1)))).
  reflexivity.
Defined.

Lemma init_degenerate_10_5 :
  __init__ (Some (PyInt 10)) (Some (PyInt 0)) None = Raise ZeroDivisionError
  /\ __init__ (Some (PyInt 10)) None (Some (PyFraction (0 # 1)))
     = Raise ZeroDivisionError
  /\ __init__ None (Some (PyInt 5)) (Some (PyFraction (0 # 1)))
     = Return {| _width := Some (PyFraction (0 # 1));
                 _height := Some (PyInt 5);
                 _ar := Some (PyFraction (0 # 1));
                 _fully_specified := Some false |}.
Proof. apply (init_degenerate 10 5 (0 # 1)). reflexivity. Defined.

Lemma fit_keeps_sized_box_200_100 :
  container_box
    (snd (fit (rule_of ALIGN_MID ALIGN_MID 0 SHRINK_TO_FIT)
              (PyInt 100) (PyInt 100) (world_of (sized_box 200 100))))
  = sized_box 200 100.
Proof.
  apply (fit_keeps_sized_box (rule_of ALIGN_MID ALIGN_MID 0 SHRINK_TO_FIT)
           (PyInt 100) (PyInt 100) (world_of (sized_box 200 100)));
    reflexivity.
Defined.

Lemma fit_uniform_scale_200_100 :
  x_scale {| x_pos := PyFloat 50%float; y_pos := PyFloat 0%float;
             x_scale := PyFloat 1%float; y_scale := PyFloat 1%float |}
  = y_scale {| x_pos := PyFloat 50%float; y_pos := PyFloat 0%float;
               x_scale := PyFloat 1%float; y_scale := PyFloat 1%float |}.
Proof.
  apply (fit_uniform_scale (rule_of ALIGN_MID ALIGN_MID 0 SHRINK_TO_FIT)
           (PyInt 100) (PyInt 100)
           (world_of (sized_box 200 100)) (world_of (sized_box 200 100))).
  - discriminate.
  - reflexivity.
Defined.

Lemma fit_shrink_never_enlarges_200_100 :
  let p := {| x_pos := PyFloat 50%float; y_pos := PyFloat 0%float;
              x_scale := PyFloat 1%float; y_scale := PyFloat 1%float |} in
  pygt (x_scale p) (PyInt 1) = false /\ pygt (y_scale p) (PyInt 1) = false.
Proof.
  apply (fit_shrink_never_enlarges
           (rule_of ALIGN_MID ALIGN_MID 0 SHRINK_TO_FIT)
           (PyInt 100) (PyInt 100)
           (world_of (sized_box 200 100)) (world_of (sized_box 200 100)));
    reflexivity.
Defined.

Lemma fit_stretch_to_fit_bounded_200_100 :
  let p := {| x_pos := PyFloat 50%float; y_pos := PyFloat 0%float;
              x_scale := PyFloat 1%float; y_scale := PyFloat 1%float |} in
  x_scale p = y_scale p
  /\ pygt (x_scale p) (PyFloat 2%float) = false
  /\ pygt (x_scale p) (PyFloat 1%float) = false.
Proof.
  apply (fit_stretch_to_fit_bounded
           (rule_of ALIGN_MID ALIGN_MID 0 STRETCH_TO_FIT)
           (PyInt 100) (PyInt 100)
           (world_of (sized_box 200 100)) (world_of (sized_box 200 100))
           _ (PyInt 200) (PyInt 100) (PyInt 200) (PyInt 100));
    reflexivity.
Defined.

Lemma fit_no_scaling_within_margins_200_100 :
  let world :=
    {| container_box :=
         {| _width := Some (PyInt 200); _height := Some (PyInt 100);
            _ar := Some (PyFraction (2 # 1)); _fully_specified := Some true |};
       records := [] |} in
  exists x y,
    fit (rule_of ALIGN_MID ALIGN_MAX 3 NO_SCALING) (PyInt 100) (PyInt 50) world
    = (Return {| x_pos := PyInt x; y_pos := PyInt y;
                 x_scale := PyInt 1; y_scale := PyInt 1 |}, world)
    /\ 3 <= x /\ x + 100 <= 200 - 3
    /\ 3 <= y /\ y + 50 <= 100 - 3.
Proof.
  apply (fit_no_scaling_within_margins
           (rule_of ALIGN_MID ALIGN_MAX 3 NO_SCALING) 100 50 200 100
           (Some (PyFraction (2 # 1))) (Some true) []);
    [reflexivity | cbn; lia | cbn; lia | cbn; lia | cbn; lia].
Defined.

Lemma fit_again_after_autosize_100_50 :
  let p := {| x_pos := PyInt 3; y_pos := PyInt 3;
              x_scale := PyInt 1; y_scale := PyInt 1 |} in
  let first := fit (rule_of ALIGN_MID ALIGN_MAX 3 SHRINK_TO_FIT)
                   (PyInt 100) (PyInt 50) (world_of empty_box) in
  fst first = Return p
  /\ fit (rule_of ALIGN_MAX ALIGN_MID 3 NO_SCALING) (PyInt 100) (PyInt 50)
         (snd first)
     = (Return p, snd first).
Proof.
  apply (fit_again_after_autosize
           (rule_of ALIGN_MID ALIGN_MAX 3 SHRINK_TO_FIT)
           (rule_of ALIGN_MAX ALIGN_MID 3 NO_SCALING) 100 50 None []);
    [lia | lia | discriminate | reflexivity | reflexivity].
Defined.

Lemma ratio_box_single_assignment_100_60 :
  let box' := {| _width := Some (PyInt 100); _height := Some (PyInt 50);
                 _ar := Some (PyFraction (2 # 1));
                 _fully_specified := Some true |} in
  height_setter (PyInt 60) box' = (Raise BoxSpecificationError, box').
Proof.
  intros box'.
  assert (Har : _ar (ratio_box (2 # 1)) <> None) by discriminate.
  exact (proj1 (ratio_box_single_assignment (ratio_box (2 # 1)) box'
                  (PyInt 100) (PyInt 60) Har) eq_refl eq_refl).
Defined.

Lemma fit_sizes_container_ratio_box :
  let w' := world_of {| _width := Some (PyInt 100);
                        _height := Some (PyInt 50);
                        _ar := Some (PyFraction (2 # 1));
                        _fully_specified := Some true |} in
  width_defined (container_box w') = true
  /\ height_defined (container_box w') = true.
Proof.
  apply (fit_sizes_container (rule_of ALIGN_MIN ALIGN_MAX 0 SHRINK_TO_FIT)
           (PyInt 100) (PyInt 100) (world_of (ratio_box (2 # 1))) _
           {| x_pos := PyInt 0; y_pos := PyInt (-50);
              x_scale := PyInt 1; y_scale := PyInt 1 |}).
  reflexivity.
Defined.
